(** * notif_svc: the event-to-notification dispatch pipeline and its scheduler

    A shallow embedding of the Python sources under [src/]:
    - [repositories/database.py], [repositories/*_repository.py]: the tables
      and the queries on them;
    - [deduplications/]: the time-window policy and its manager;
    - [channels/]: the channel contract and the channel manager;
    - [services/notification_service.py]: [send_notification];
    - [events/]: the handler registry and the two handlers;
    - [scheduler.py]: the cron scheduler.

    Python objects become records, dictionaries become [gmap]s, the SQL
    tables become finite maps keyed by primary key (or lists of rows where
    the order of rows is observed), and code that raises, mutates the
    database, reads the clock or logs lives in the monad [M]: a state monad
    over [World] whose result is either a value or a raised exception.
    Strings are sequences of bytes, the UTF-8 encoding of Python's [str].
    [send_notification] is the one function that goes on using its database
    session after an insert has failed; it is written in [MS], which adds to
    [M] the state of that session. *)

From Stdlib Require Import ZArith Ascii String List Bool Lia.
From stdpp Require Import base option gmap strings list fin_maps pretty.

Set Warnings "-register-all".

Local Open Scope string_scope.
Local Open Scope Z_scope.

(** ** Values, identifiers, time *)

(** A UUID is kept in its canonical textual form, so that [str(event.id)]
    and [uuid.UUID(event_id)] are both the identity. *)
Abbreviation uuid := string (only parsing).

(** [datetime]: microseconds since 1970-01-01 00:00:00, the resolution of
    Python's [datetime]; [timedelta(seconds=s)] is [s] million of them.
    [datetime_min] and [datetime_max] are [datetime.min] (year 1) and
    [datetime.max] (the end of year 9999). *)
Abbreviation datetime := Z (only parsing).

Definition timedelta (seconds : Z) : Z := seconds * 1000000.

Definition datetime_min : Z := -62135596800000000.

Definition datetime_max : Z := 253402300799999999.

(** The values a JSON document (the [data] column of an event) can hold.
    Only strings are inspected by the code; lists and objects matter
    because they are unhashable. *)
Inductive value : Type :=
  | VNull
  | VBool (b : bool)
  | VInt (z : Z)
  | VStr (s : string)
  | VList (l : list value)
  | VDict (d : list (string * value)).

(** ** models.py *)

Inductive NotificationStatus : Set := PENDING | SENT | FAILED | DUPLICATE.

#[global] Instance NotificationStatus_eq_dec : EqDecision NotificationStatus.
Proof. solve_decision. Defined.

(** The enum's string value, which is what the [status] column holds. *)
Definition status_value (s : NotificationStatus) : string :=
  match s with
  | PENDING => "pending"
  | SENT => "sent"
  | FAILED => "failed"
  | DUPLICATE => "duplicate"
  end.

(** The three statuses a notification ends in. *)
Definition terminal (s : NotificationStatus) : bool :=
  match s with
  | PENDING => false
  | _ => true
  end.

(** ** repositories/database.py: the rows *)

Record Notification : Type := mkNotification {
  n_id : uuid;
  n_event_id : uuid;
  n_template_id : string;
  n_channel : string;
  n_recipient : value;
  n_subject : option string;
  n_content : string;
  n_content_hash : string;
  n_status : NotificationStatus;
  n_created_at : datetime;
  n_sent_at : option datetime
}.

Record DeduplicationLog : Type := mkDeduplicationLog {
  dl_id : uuid;
  dl_content_hash : string;
  dl_created_at : datetime
}.

Record Event : Type := mkEvent {
  e_id : uuid;
  e_type : string;
  e_data : option (gmap string value);
    (* the JSON column, declared [Dict[str, Any]]; [None] stands for a
       stored value that is no container: JSON null, a number or a boolean.
       Rows whose data is a JSON array or string are outside the model. *)
  e_created_at : datetime;
  e_processed_at : option datetime;
  e_processed : bool;
  e_deleted : bool
}.

Definition set_subject (s : option string) (n : Notification) : Notification :=
  mkNotification (n_id n) (n_event_id n) (n_template_id n) (n_channel n)
    (n_recipient n) s (n_content n) (n_content_hash n) (n_status n)
    (n_created_at n) (n_sent_at n).

Definition set_status (s : NotificationStatus) (n : Notification) : Notification :=
  mkNotification (n_id n) (n_event_id n) (n_template_id n) (n_channel n)
    (n_recipient n) (n_subject n) (n_content n) (n_content_hash n) s
    (n_created_at n) (n_sent_at n).

Definition set_sent_at (t : option datetime) (n : Notification) : Notification :=
  mkNotification (n_id n) (n_event_id n) (n_template_id n) (n_channel n)
    (n_recipient n) (n_subject n) (n_content n) (n_content_hash n) (n_status n)
    (n_created_at n) t.


(** ** Exceptions and log records *)

Inductive exn : Type :=
  | ValueError (msg : string)
  | TypeError (msg : string)
  | AttributeError (msg : string)
  | IntegrityError (msg : string)
  | TemplateNotFound (msg : string)
  | TemplateRuntimeError (msg : string)
  | KeyError (msg : string)
  | JobLookupError (msg : string)
  | DBAPIError (msg : string)
      (* sqlalchemy.exc: [InterfaceError] or [ProgrammingError], by the
         version of the SQLite driver *)
  | OverflowError (msg : string)
  | PendingRollbackError (msg : string)
  | SchedulerAlreadyRunningError (msg : string).

(** [str(e)]. *)
Definition exn_str (e : exn) : string :=
  match e with
  | ValueError m | TypeError m | AttributeError m | IntegrityError m
  | TemplateNotFound m | TemplateRuntimeError m | KeyError m
  | JobLookupError m | DBAPIError m | OverflowError m
  | PendingRollbackError m | SchedulerAlreadyRunningError m => m
  end.

Inductive level : Set := DEBUG | INFO | WARNING | ERROR.

Record LogRecord : Type := mkLog { l_level : level; l_msg : string }.

(** ** The world: tables, clock, id supply, log, scheduler *)

(** The keyword arguments [_parse_cron] builds for the cron trigger; [None]
    is the wildcard. *)
Record cron_parts : Type := mkCronParts {
  minute : option string;
  hour : option string;
  day : option string;
  month : option string;
  day_of_week : option string
}.

Record Job : Type := mkJob {
  j_id : string;
  j_name : string;
  j_trigger : cron_parts;
  j_args : list string
}.

(** The [NotificationScheduler] object: the jobs its APScheduler instance
    holds, whether that instance is started (its state is not
    [STATE_STOPPED]), [is_running], and whether a [shutdown] was handed to
    the event loop and has not run yet. *)
Record Scheduler : Type := mkScheduler {
  jobs : gmap string Job;
  started : bool;
  is_running : bool;
  shutdown_requested : bool
}.

Record World : Type := mkWorld {
  notifications : gmap string Notification;   (* table [notifications], by primary key *)
  deduplication_logs : list DeduplicationLog; (* table [deduplication_logs] *)
  events : list Event;                        (* table [events], in row order *)
  clock : nat -> datetime;                    (* the successive readings of [utcnow] *)
  ticks : nat;                                (* readings taken so far *)
  uuids : nat -> uuid;                        (* the successive results of [uuid4] *)
  drawn : nat;                                (* ids drawn so far *)
  log : list LogRecord;                       (* oldest first *)
  commits : list (uuid * NotificationStatus);
    (* ghost: the status committed with every write to [notifications],
       oldest first; the code keeps no such journal, the proofs read the
       history of a row from it *)
  scheduler : Scheduler                       (* the process-wide scheduler *)
}.


Definition with_deduplication_logs (t : list DeduplicationLog) (w : World) : World :=
  mkWorld (notifications w) t (events w) (clock w) (ticks w) (uuids w) (drawn w) (log w) (commits w) (scheduler w).

Definition with_events (t : list Event) (w : World) : World :=
  mkWorld (notifications w) (deduplication_logs w) t (clock w) (ticks w) (uuids w) (drawn w) (log w) (commits w) (scheduler w).

Definition with_ticks (k : nat) (w : World) : World :=
  mkWorld (notifications w) (deduplication_logs w) (events w) (clock w) k (uuids w) (drawn w) (log w) (commits w) (scheduler w).

Definition with_drawn (k : nat) (w : World) : World :=
  mkWorld (notifications w) (deduplication_logs w) (events w) (clock w) (ticks w) (uuids w) k (log w) (commits w) (scheduler w).

Definition with_log (l : list LogRecord) (w : World) : World :=
  mkWorld (notifications w) (deduplication_logs w) (events w) (clock w) (ticks w) (uuids w) (drawn w) l (commits w) (scheduler w).

Definition with_scheduler (s : Scheduler) (w : World) : World :=
  mkWorld (notifications w) (deduplication_logs w) (events w) (clock w) (ticks w) (uuids w) (drawn w) (log w) (commits w) s.

(** A commit of the row with primary key [id] of [notifications]: the
    table and the journal. *)
Definition commit_notification (id : uuid) (n : Notification) (w : World) : World :=
  mkWorld (<[id := n]> (notifications w)) (deduplication_logs w) (events w) (clock w)
    (ticks w) (uuids w) (drawn w) (log w) (commits w ++ [(id, n_status n)])
    (scheduler w).

(** ** The monad of effectful code *)

Inductive result (A : Type) : Type :=
  | Ok (a : A)
  | Raise (e : exn).
Arguments Ok {A} a.
Arguments Raise {A} e.

Definition M (A : Type) : Type := World -> result A * World.

Definition ret {A} (a : A) : M A := fun w => (Ok a, w).

Definition raise {A} (e : exn) : M A := fun w => (Raise e, w).

Definition bind {A B} (m : M A) (k : A -> M B) : M B :=
  fun w =>
    match m w with
    | (Ok a, w') => k a w'
    | (Raise e, w') => (Raise e, w')
    end.

(** [try: m except Exception as e: h e]. *)
Definition try_except {A} (m : M A) (h : exn -> M A) : M A :=
  fun w =>
    match m w with
    | (Ok a, w') => (Ok a, w')
    | (Raise e, w') => h e w'
    end.

Definition lift {A} (r : result A) : M A := fun w => (r, w).

Declare Scope m_scope.
Delimit Scope m_scope with M.
Notation "x <- m ;; k" := (bind m (fun x => k))
  (at level 100, m at next level, right associativity) : m_scope.
Notation "m ;;; k" := (bind m (fun _ => k))
  (at level 100, right associativity) : m_scope.
Local Open Scope m_scope.

Definition get_world : M World := fun w => (Ok w, w).

Definition modify (f : World -> World) : M unit := fun w => (Ok tt, f w).

(** [datetime.utcnow()]: the next reading of the clock. *)
Definition utcnow : M datetime :=
  fun w => (Ok (clock w (ticks w)), with_ticks (S (ticks w)) w).

(** [uuid.uuid4()]. *)
Definition uuid4 : M uuid :=
  fun w => (Ok (uuids w (drawn w)), with_drawn (S (drawn w)) w).

Definition logger (lv : level) (msg : string) : M unit :=
  modify (fun w => with_log (log w ++ [mkLog lv msg]) w).

(** ** The session

    A [Repositories] object works on one SQLAlchemy session. A [commit]
    whose flush fails leaves that session inactive: until [rollback] is
    called, every further use of it raises [PendingRollbackError]; the code
    never calls [rollback]. The repository methods below are given in [M],
    as they behave on an active session. Code that goes on using the
    session after a failure lives in [MS], which threads the state of the
    session, also through a raised exception. *)
Inductive Session : Set := Active | Inactive.

Definition MS (A : Type) : Type := Session -> World -> result A * World * Session.

Definition sret {A} (a : A) : MS A := fun s w => (Ok a, w, s).

Definition sbind {A B} (m : MS A) (k : A -> MS B) : MS B :=
  fun s w =>
    match m s w with
    | (Ok a, w', s') => k a s' w'
    | (Raise e, w', s') => (Raise e, w', s')
    end.

Definition stry_except {A} (m : MS A) (h : exn -> MS A) : MS A :=
  fun s w =>
    match m s w with
    | (Ok a, w', s') => (Ok a, w', s')
    | (Raise e, w', s') => h e s' w'
    end.

(** Code that does not use the session. *)
Definition plain {A} (m : M A) : MS A := fun s w => (m w, s).

(** A call of a method of a repository, or of code that works through the
    repositories: an inactive session refuses it, and an exception it
    raises is a flush that failed. *)
Definition repo {A} (m : M A) : MS A :=
  fun s w =>
    match s with
    | Inactive =>
        (Raise (PendingRollbackError
                  "This Session's transaction has been rolled back due to a previous exception during flush"),
         w, Inactive)
    | Active =>
        match m w with
        | (Ok a, w') => (Ok a, w', Active)
        | (Raise e, w') => (Raise e, w', Inactive)
        end
    end.

(** A call made on a session that is active when the call starts. *)
Definition on_active_session {A} (m : MS A) : M A := fun w => (m Active w).1.

Declare Scope ms_scope.
Delimit Scope ms_scope with MS.
Notation "x <- m ;; k" := (sbind m (fun x => k))
  (at level 100, m at next level, right associativity) : ms_scope.
Notation "m ;;; k" := (sbind m (fun _ => k))
  (at level 100, right associativity) : ms_scope.

(** ** repositories/notification_repository.py *)

Module NotificationRepository.

(** What SQLite does with a value bound to the [recipient] column, the one
    column a handler fills with a value of the request as it came: NULL,
    text and a 64-bit integer (a boolean is one) are stored; a list or an
    object cannot be bound, and a larger integer does not fit. *)
Definition bind_error (v : value) : option exn :=
  match v with
  | VNull | VBool _ | VStr _ => None
  | VInt z =>
      if (- 2 ^ 63 <=? z) && (z <? 2 ^ 63) then None
      else Some (OverflowError "Python int too large to convert to SQLite INTEGER")
  | VList _ =>
      Some (DBAPIError "Error binding parameter: type 'list' is not supported")
  | VDict _ =>
      Some (DBAPIError "Error binding parameter: type 'dict' is not supported")
  end.

(** [self.db.add(notification); self.db.commit()]: the row is stored
    under its primary key. The flush fails, and nothing is stored, when a
    value cannot be bound or when the key is already taken, which violates
    the primary-key constraint. *)
Definition db_add (n : Notification) : M unit :=
  fun w =>
    match bind_error (n_recipient n) with
    | Some e => (Raise e, w)
    | None =>
        match notifications w !! n_id n with
        | Some _ =>
            (Raise (IntegrityError "UNIQUE constraint failed: notifications.id"), w)
        | None => (Ok tt, commit_notification (n_id n) n w)
        end
    end.

(** [x or default] on an optional string: [None] and [""] are falsy. *)
Definition str_or (x : option string) (default : string) : string :=
  match x with
  | None => default
  | Some "" => default
  | Some s => s
  end.

Definition create_from_instance (notification : Notification) : M Notification :=
  let notification :=
    set_subject (Some (str_or (n_subject notification) "No Subject")) notification in
  db_add notification ;;;
  ret notification.

Definition get (notification_id : uuid) : M (option Notification) :=
  fun w => (Ok (notifications w !! notification_id), w).

(** The filter of [any]: same hash, created at or after the threshold,
    another id. *)
Definition any_filter (id : uuid) (hash : string) (threshold : datetime)
    (row : uuid * Notification) : bool :=
  String.eqb (n_content_hash row.2) hash
  && (threshold <=? n_created_at row.2)
  && negb (String.eqb row.1 id).

(** [query(...).filter(...).count()]. *)
Definition count_rows (f : uuid * Notification -> bool)
    (t : gmap string Notification) : nat :=
  length (List.filter f (map_to_list t)).

Definition any (id : uuid) (hash : string) (seconds : Z) : M bool :=
  now <- utcnow ;;
  let threshold := now - timedelta seconds in
  w <- get_world ;;
  ret (0 <? count_rows (any_filter id hash threshold) (notifications w))%nat.

Definition update_status (notification_id : uuid) (status : NotificationStatus)
    (sent_at : option datetime) : M (option Notification) :=
  notification <- get notification_id ;;
  match notification with
  | Some notification =>
      let notification := set_status status notification in
      notification <-
        match sent_at with
        | Some t => ret (set_sent_at (Some t) notification)
        | None =>
            match status with
            | SENT => t <- utcnow ;; ret (set_sent_at (Some t) notification)
            | _ => ret notification
            end
        end ;;
      modify (commit_notification notification_id notification) ;;;
      ret (Some notification)
  | None => ret None
  end.

(** [create]: a new row, with an id drawn by [uuid4] and created now.
    The subject is stored as given: the default of [create_from_instance]
    is not applied here. *)
Definition create (event_id : uuid) (template_id channel subject : string)
    (recipient : option string) (content content_hash : string)
    (status : NotificationStatus) : M Notification :=
  id <- uuid4 ;;
  created_at <- utcnow ;;
  let notification :=
    mkNotification id event_id template_id channel
      (match recipient with
       | Some r => VStr r
       | None => VNull
       end)
      (Some subject) content content_hash status created_at None in
  db_add notification ;;;
  ret notification.

(** [query(Notification).filter(...).all()]; the order of the rows is the
    one of the table, which no caller relies on. *)
Definition all_rows (f : Notification -> bool) : M (list Notification) :=
  fun w => (Ok (List.filter f (map_to_list (notifications w)).*2), w).

Definition get_by_event (event_id : uuid) : M (list Notification) :=
  all_rows (fun n => String.eqb (n_event_id n) event_id).

Definition get_by_channel (channel : string) : M (list Notification) :=
  all_rows (fun n => String.eqb (n_channel n) channel).

(** The dictionary [get_stats] returns. *)
Record Stats : Type := mkStats {
  st_total : nat;
  st_sent : nat;
  st_failed : nat;
  st_pending : nat;
  st_duplicates : nat
}.

Definition has_status (status : NotificationStatus) (row : uuid * Notification) : bool :=
  bool_decide (n_status row.2 = status).

Definition get_stats : M Stats :=
  fun w =>
    let t := notifications w in
    (Ok (mkStats (count_rows (fun _ => true) t)
           (count_rows (has_status SENT) t)
           (count_rows (has_status FAILED) t)
           (count_rows (has_status PENDING) t)
           (count_rows (has_status DUPLICATE) t)), w).

End NotificationRepository.

(** ** repositories/deduplication_repository.py *)

Module DeduplicationRepository.

Definition log_deduplication (content_hash : string) : M DeduplicationLog :=
  id <- uuid4 ;;
  created_at <- utcnow ;;
  let log_entry := mkDeduplicationLog id content_hash created_at in
  modify (fun w => with_deduplication_logs (deduplication_logs w ++ [log_entry]) w) ;;;
  ret log_entry.

Definition check_duplicate (content_hash : string) : M bool :=
  fun w =>
    (Ok match List.find (fun l => String.eqb (dl_content_hash l) content_hash)
                (deduplication_logs w) with
        | Some _ => true
        | None => false
        end, w).

(** [timedelta(days=days)]: the constructor refuses more than 999999999
    days either way. *)
Definition timedelta_days (days : Z) : result Z :=
  if Z.abs days <=? 999999999 then Ok (timedelta (days * 86400))
  else Raise (OverflowError ("days=" ++ pretty days
                             ++ "; must have magnitude <= 999999999")).

(** [d - delta] for a [datetime] and a [timedelta]: the result has to be a
    [datetime]. *)
Definition datetime_sub (d : datetime) (delta : Z) : result datetime :=
  if (datetime_min <=? d - delta) && (d - delta <=? datetime_max) then Ok (d - delta)
  else Raise (OverflowError "date value out of range").

(** [cleanup_old_logs]: deletes the entries created before the cutoff and
    returns how many there were. *)
Definition cleanup_old_logs (days : Z) : M nat :=
  now <- utcnow ;;
  delta <- lift (timedelta_days days) ;;
  cutoff_date <- lift (datetime_sub now delta) ;;
  w <- get_world ;;
  let deleted :=
    length (List.filter (fun l => dl_created_at l <? cutoff_date)
              (deduplication_logs w)) in
  modify (fun w =>
    with_deduplication_logs
      (List.filter (fun l => negb (dl_created_at l <? cutoff_date))
         (deduplication_logs w)) w) ;;;
  ret deleted.

End DeduplicationRepository.

(** ** deduplications/ *)

(** [BasePolicy]: the interface of a deduplication policy. *)
Record BasePolicy : Type := mkPolicy {
  p_name : string;
  should_send : Notification -> M bool;
  record_duplication : Notification -> M unit
}.

Definition str_bool (b : bool) : string := if b then "True" else "False".

Module TimeWindowPolicy.

Definition default_window_seconds : Z := 60.

Definition should_send (window_seconds : Z) (notification : Notification) : M bool :=
  let hash := n_content_hash notification in
  found <- NotificationRepository.any (n_id notification) hash window_seconds ;;
  let result := negb found in
  logger DEBUG ("Checking deduplication for hash " ++ hash ++ ": " ++ str_bool result) ;;;
  ret result.

Definition record_duplication (notification : Notification) : M unit :=
  let hash := n_content_hash notification in
  DeduplicationRepository.log_deduplication hash ;;;
  ret tt.

Definition make (window_seconds : Z) : BasePolicy :=
  mkPolicy "time_window" (should_send window_seconds) record_duplication.

End TimeWindowPolicy.

Module DeduplicationManager.

(** [_policies]: the one shipped policy, with its default window. *)
Definition _policies : list (string * BasePolicy) :=
  let time_window := TimeWindowPolicy.make TimeWindowPolicy.default_window_seconds in
  [(p_name time_window, time_window)].

(** [handle]: the policies in registration order, stopping at the first
    that says not to send. *)
Fixpoint handle (policies : list (string * BasePolicy)) (notification : Notification)
    : M bool :=
  match policies with
  | [] => ret true
  | (_, policy) :: rest =>
      ok <- should_send policy notification ;;
      if ok then handle rest notification
      else (record_duplication policy notification ;;; ret false)
  end.

End DeduplicationManager.

(** ** channels/ *)

(** [BaseChannel]: [send] returns a boolean or raises; what it does is
    outside the database. *)
Record BaseChannel : Type := mkChannel {
  c_name : string;
  c_description : string;
  send : Notification -> result bool;
  validate_config : bool
}.

(** [EmailChannel]: writes a file; any exception while writing is caught
    and turned into [False]. [written] says whether the write succeeds. *)
Definition EmailChannel (written : bool) : BaseChannel :=
  mkChannel "email" "Email notification channel" (fun _ => Ok written) true.

(** [SlackChannel]: prints the message; any exception is caught and turned
    into [False]. *)
Definition SlackChannel (printed : bool) : BaseChannel :=
  mkChannel "slack" "Slack notification channel" (fun _ => Ok printed) true.

Module ChannelManager.

Definition _get_channels (written printed : bool) : gmap string BaseChannel :=
  let email := EmailChannel written in
  let slack := SlackChannel printed in
  <[c_name slack := slack]> (<[c_name email := email]> ∅).

(** [send] touches nothing but the channel, so it is given as the value
    it returns or the exception it raises. *)
Definition send (channels : gmap string BaseChannel) (notification : Notification)
    : result bool :=
  match channels !! n_channel notification with
  | None => Raise (ValueError ("Channel " ++ n_channel notification ++ " not found"))
  | Some channel =>
      if negb (validate_config channel)
      then Raise (ValueError ("Channel " ++ n_channel notification
                              ++ " configuration is invalid"))
      else send channel notification
  end.

End ChannelManager.

(** ** services/notification_service.py *)

Definition str_value_opt (v : value) : string :=
  match v with
  | VStr s => s
  | VNull => "None"
  | _ => "<value>"
  end.

Module NotificationService.

Record t : Type := mkService {
  channel_manager : gmap string BaseChannel;
  deduplication_manager : list (string * BasePolicy)
}.

(** [send_notification], with the session of [self.repos] threaded
    through: the repositories and the deduplication manager work on it, the
    logger, the clock and the channels do not. *)
Definition send_notification_in_session (self : t) (notification : Notification)
    : MS bool :=
  (let id := n_id notification in
   plain (logger INFO ("Processing notification " ++ id ++ " via "
                       ++ n_channel notification)) ;;;
   plain (logger DEBUG ("Notification details - recipient: "
                        ++ str_value_opt (n_recipient notification)
                        ++ ", template: N/A")) ;;;
   stry_except
     (notification <- repo (NotificationRepository.create_from_instance notification) ;;
      plain (logger DEBUG ("Notification " ++ id ++ " stored in database")) ;;;
      should_send <-
        repo (DeduplicationManager.handle (deduplication_manager self) notification) ;;
      plain (logger DEBUG (n_content notification)) ;;;
      if negb should_send then
        plain (logger INFO ("Duplicate notification detected for " ++ id
                            ++ ", skipping send")) ;;;
        now <- plain utcnow ;;
        repo (NotificationRepository.update_status id DUPLICATE (Some now)) ;;;
        sret false
      else
        plain (logger DEBUG ("Sending notification " ++ id ++ " through "
                             ++ n_channel notification ++ " channel")) ;;;
        plain (lift (ChannelManager.send (channel_manager self) notification)) ;;;
        now <- plain utcnow ;;
        repo (NotificationRepository.update_status id SENT (Some now)) ;;;
        plain (logger INFO ("Notification " ++ id ++ " sent successfully")) ;;;
        sret true)
     (fun e =>
        plain (logger ERROR ("Failed to send notification " ++ id ++ ": "
                             ++ exn_str e)) ;;;
        repo (NotificationRepository.update_status id FAILED None) ;;;
        sret false))%MS.

(** [send_notification] as its callers use it: on the session of a request
    or of a job, which is active when the call starts (a caller stops at the
    first call that raises). *)
Definition send_notification (self : t) (notification : Notification) : M bool :=
  on_active_session (send_notification_in_session self notification).

(** The service as [NotificationService(repos)] builds it. *)
Definition default (written printed : bool) : t :=
  mkService (ChannelManager._get_channels written printed)
            DeduplicationManager._policies.

End NotificationService.

(** ** templates.py *)

(** The template engine is a black box: [render] gives the rendered text
    or raises [TemplateNotFound] / [TemplateRuntimeError];
    [get_content_hash] is the SHA-256 hex digest of the text. *)
Record TemplateManager : Type := mkTemplateManager {
  render : string -> gmap string value -> result string;
  get_content_hash : string -> string
}.

(** ** repositories/event_repository.py *)

Module EventRepository.

Definition create_event (event_type : string) (data : option (gmap string value))
    : M Event :=
  id <- uuid4 ;;
  created_at <- utcnow ;;
  let event := mkEvent id event_type data created_at None false false in
  modify (fun w => with_events (events w ++ [event]) w) ;;;
  ret event.

Definition get_scheduled_events : M (list Event) :=
  fun w => (Ok (List.filter (fun e => String.eqb (e_type e) "scheduled") (events w)), w).

Definition get_scheduled_event_by_id (event_id : uuid) : M (option Event) :=
  fun w =>
    (Ok (List.find
           (fun e => String.eqb (e_id e) event_id && String.eqb (e_type e) "scheduled")
           (events w)), w).

Definition get_event (event_id : uuid) : M (option Event) :=
  fun w => (Ok (List.find (fun e => String.eqb (e_id e) event_id) (events w)), w).

Definition get_unprocessed_events : M (list Event) :=
  fun w => (Ok (List.filter (fun e => negb (e_processed e)) (events w)), w).

(** The update [mark_event_processed] commits: the row [get_event] found
    (the first with that id) becomes processed, at [now]. *)
Fixpoint mark_row (event_id : uuid) (now : datetime) (rows : list Event) : list Event :=
  match rows with
  | [] => []
  | e :: rest =>
      if String.eqb (e_id e) event_id
      then mkEvent (e_id e) (e_type e) (e_data e) (e_created_at e) (Some now) true
             (e_deleted e) :: rest
      else e :: mark_row event_id now rest
  end.

Definition mark_event_processed (event_id : uuid) : M bool :=
  event <- get_event event_id ;;
  match event with
  | Some _ =>
      now <- utcnow ;;
      modify (fun w => with_events (mark_row event_id now (events w)) w) ;;;
      ret true
  | None => ret false
  end.

End EventRepository.

(** ** events/ *)

Inductive EventClass : Set := DailyStatEvent_cls | SignupEvent_cls.

(** A handler instance: the fields [BaseEvent.__init__] and its subclasses
    set. [h_cron] is set by [ScheduleEvent] only. *)
Record BaseEvent : Type := mkBaseEvent {
  h_class : EventClass;
  h_source : string;
  h_data : gmap string value;
  h_event_id : uuid;
  h_cron : option value
}.

(** [key in data]. *)
Definition contains (data : gmap string value) (key : string) : bool :=
  match data !! key with
  | Some _ => true
  | None => false
  end.

(** [data[key]]. *)
Definition getitem (data : gmap string value) (key : string) : result value :=
  match data !! key with
  | Some v => Ok v
  | None => Raise (KeyError key)
  end.

(** [str(v)] for the scalars; containers are not spelled out. *)
Definition str_value (v : value) : string :=
  match v with
  | VNull => "None"
  | VBool b => str_bool b
  | VInt z => pretty z
  | VStr s => s
  | VList _ => "[...]"
  | VDict _ => "{...}"
  end.

Module ScheduleEvent.

(** [ScheduleEvent.__init__], for the subclass [cls]. *)
Definition init (cls : EventClass) (event : Event) (data : gmap string value)
    : result BaseEvent :=
  if negb (contains data "cron")
  then Raise (ValueError "Missing 'cron' field in scheduled event data")
  else Ok (mkBaseEvent cls (e_type event) data (e_id event) (data !! "cron")).

End ScheduleEvent.

Module DailyStatEvent.

Definition init (event : Event) : result BaseEvent :=
  match e_data event with
  | None => Raise (ValueError "event.data must be a dictionary")
  | Some data =>
      match ScheduleEvent.init DailyStatEvent_cls event data with
      | Raise e => Raise e
      | Ok self =>
          if negb (contains data "query")
             || negb (contains data "recipient")
             || negb (contains data "slack_channel")
          then Raise (ValueError "Missing required fields in event data")
          else Ok self
      end
  end.

Definition slack_template : string := "daily_statistics_report.j2".

Definition query_data : gmap string value :=
  list_to_map
    [("date", VStr "2023-10-01");
     ("total_users", VInt 100);
     ("new_signups", VInt 10);
     ("active_users", VInt 80);
     ("notifications_sent", VInt 50);
     ("avg_response_time", VStr "2s");
     ("success_rate", VStr "95%");
     ("cpu_usage", VStr "30%");
     ("memory_usage", VStr "40%");
     ("disk_usage", VStr "20%");
     ("alerts", VList [VStr "1"; VStr "2"]);
     ("report_time", VStr "2023-10-01T12:00:00Z")].

Definition create_notifications (tm : TemplateManager) (self : BaseEvent)
    : M (list Notification) :=
  let data := query_data in
  slack_content <- lift (render tm slack_template data) ;;
  let slack_content_hash := get_content_hash tm slack_content in
  id <- uuid4 ;;
  recipient <- lift (getitem (h_data self) "slack_channel") ;;
  created_at <- utcnow ;;
  let slack_notification :=
    mkNotification id (h_event_id self) slack_template "slack" recipient None
      slack_content slack_content_hash PENDING created_at None in
  ret [slack_notification].

End DailyStatEvent.

Module SignupEvent.

Definition init (event : Event) : result BaseEvent :=
  match e_data event with
  | None => Raise (ValueError "event.data must be a dictionary")
  | Some data =>
      if negb (contains data "user_name")
         || negb (contains data "email")
         || negb (contains data "service_name")
         || negb (contains data "recipient")
         || negb (contains data "slack_channel")
      then Raise (ValueError "Missing required fields in event data")
      else Ok (mkBaseEvent SignupEvent_cls "user_signup" data (e_id event) None)
  end.

Definition email_template : string := "user_welcome_email.j2".
Definition slack_template : string := "user_welcome_slack_message.j2".

Definition create_notifications (tm : TemplateManager) (self : BaseEvent)
    : M (list Notification) :=
  email_content <- lift (render tm email_template (h_data self)) ;;
  let email_content_hash := get_content_hash tm email_content in
  id <- uuid4 ;;
  recipient <- lift (getitem (h_data self) "recipient") ;;
  created_at <- utcnow ;;
  let email_notification :=
    mkNotification id (h_event_id self) email_template "email" recipient None
      email_content email_content_hash PENDING created_at None in
  slack_content <- lift (render tm slack_template (h_data self)) ;;
  let slack_content_hash := get_content_hash tm slack_content in
  id <- uuid4 ;;
  recipient <- lift (getitem (h_data self) "slack_channel") ;;
  created_at <- utcnow ;;
  let slack_notification :=
    mkNotification id (h_event_id self) slack_template "slack" recipient None
      slack_content slack_content_hash PENDING created_at None in
  ret [email_notification; slack_notification].

End SignupEvent.

(** The constructor and [create_notifications] of a class. *)
Definition construct (cls : EventClass) (event : Event) : result BaseEvent :=
  match cls with
  | DailyStatEvent_cls => DailyStatEvent.init event
  | SignupEvent_cls => SignupEvent.init event
  end.

Definition create_notifications (tm : TemplateManager) (self : BaseEvent)
    : M (list Notification) :=
  match h_class self with
  | DailyStatEvent_cls => DailyStatEvent.create_notifications tm self
  | SignupEvent_cls => SignupEvent.create_notifications tm self
  end.

Module EventManager.

(** The dictionary literal [EVENT_TYPE_MAP], in the order it is written,
    which is the order of its keys, and as the map the lookups use. *)
Definition EVENT_TYPE_ITEMS : list (string * EventClass) :=
  [("daily_stat", DailyStatEvent_cls); ("user_signup", SignupEvent_cls)].

Definition EVENT_TYPE_MAP : gmap string EventClass := list_to_map EVENT_TYPE_ITEMS.

(** [EVENT_TYPE_MAP.get(v)]: only a string can be a key of the map; a
    list or an object is unhashable. *)
Definition map_get (v : value) : result (option EventClass) :=
  match v with
  | VStr s => Ok (EVENT_TYPE_MAP !! s)
  | VList _ => Raise (TypeError "unhashable type: 'list'")
  | VDict _ => Raise (TypeError "unhashable type: 'dict'")
  | _ => Ok None
  end.

Definition create_event_source (event : Event) : result BaseEvent :=
  match e_data event with
  | None => Raise (ValueError "Event data must be a dictionary")
  | Some data =>
      match data !! "source" with
      | None => Raise (ValueError "Event data must contain a 'source' field")
      | Some source =>
          match map_get source with
          | Raise e => Raise e
          | Ok None => Raise (ValueError ("Unknown event source: " ++ str_value source))
          | Ok (Some event_cls) => construct event_cls event
          end
      end
  end.

Definition process_realtime_event (tm : TemplateManager)
    (event_data : gmap string value) : M (list Notification) :=
  event <- EventRepository.create_event "realtime" (Some event_data) ;;
  event_source <- lift (create_event_source event) ;;
  create_notifications tm event_source.

Definition process_scheduled_event (tm : TemplateManager)
    (event_data : gmap string value) : M (list Notification) :=
  event <- EventRepository.create_event "scheduled" (Some event_data) ;;
  event_source <- lift (create_event_source event) ;;
  create_notifications tm event_source.

(** [get_event_source]: [list(self.EVENT_TYPE_MAP.keys())], the keys in the
    order of the dictionary literal. *)
Definition get_event_source : list string := EVENT_TYPE_ITEMS.*1.

End EventManager.

(** ** scheduler.py *)

(** A Python [str] is kept as the bytes of its UTF-8 encoding. The white
    space [str.split()] and [str.strip()] cut at is every character for
    which [str.isspace()] holds; they are told by the bytes of their
    encodings, of one byte (U+0009 to U+000D, U+001C to U+0020), of two
    (U+0085, U+00A0) or of three (U+1680, U+2000 to U+200A, U+2028, U+2029,
    U+202F, U+205F, U+3000). *)
Definition is_space (c : ascii) : bool :=
  let n := nat_of_ascii c in
  ((9 <=? n) && (n <=? 13) || (28 <=? n) && (n <=? 32))%nat.

Definition is_space2 (c1 c2 : ascii) : bool :=
  let a := nat_of_ascii c1 in
  let b := nat_of_ascii c2 in
  ((a =? 194) && ((b =? 133) || (b =? 160)))%nat.

Definition is_space3 (c1 c2 c3 : ascii) : bool :=
  let a := nat_of_ascii c1 in
  let b := nat_of_ascii c2 in
  let c := nat_of_ascii c3 in
  ((a =? 225) && (b =? 154) && (c =? 128)
   || (a =? 226) && (b =? 128)
      && ((128 <=? c) && (c <=? 138) || (c =? 168) || (c =? 169) || (c =? 175))
   || (a =? 226) && (b =? 129) && (c =? 159)
   || (a =? 227) && (b =? 128) && (c =? 128))%nat.

(** [s.strip().split()]: the maximal runs of characters that are not white
    space. [word] is the run being read, if any. *)
Fixpoint split_from (word : option string) (s : string) : list string :=
  match s with
  | EmptyString =>
      match word with
      | Some wd => [wd]
      | None => []
      end
  | String c rest =>
      let cut (fields : list string) :=
        match word with
        | Some wd => wd :: fields
        | None => fields
        end in
      let read :=
        split_from (Some (match word with
                          | Some wd => wd ++ String c EmptyString
                          | None => String c EmptyString
                          end)) rest in
      if is_space c then cut (split_from None rest)
      else
        match rest with
        | String c2 rest2 =>
            if is_space2 c c2 then cut (split_from None rest2)
            else
              match rest2 with
              | String c3 rest3 =>
                  if is_space3 c c2 c3 then cut (split_from None rest3) else read
              | EmptyString => read
              end
        | EmptyString => read
        end
  end.

Definition split (s : string) : list string := split_from None s.

Module NotificationScheduler.

Section WithCronTrigger.

(** The [CronTrigger] constructor of APScheduler on the keyword
    arguments: the trigger, or the exception the library raises for a
    field it cannot parse. *)
Variable CronTrigger : cron_parts -> result cron_parts.

(** The template directory and the outcome of the two channels' writes,
    which [NotificationService(repos)] finds when a job runs. *)
Variable tm : TemplateManager.
Variables written printed : bool.

Definition init : Scheduler := mkScheduler ∅ false false false.

Definition get_self : M Scheduler := fun w => (Ok (scheduler w), w).

Definition set_is_running (b : bool) : M unit :=
  modify (fun w =>
    with_scheduler
      (mkScheduler (jobs (scheduler w)) (started (scheduler w)) b
         (shutdown_requested (scheduler w))) w).

(** [self.scheduler.start()]: APScheduler refuses to start an instance
    that is not stopped. *)
Definition scheduler_start : M unit :=
  fun w =>
    if started (scheduler w) then
      (Raise (SchedulerAlreadyRunningError "Scheduler is already running"), w)
    else
      (Ok tt,
       with_scheduler
         (mkScheduler (jobs (scheduler w)) true (is_running (scheduler w))
            (shutdown_requested (scheduler w))) w).

(** [self.scheduler.shutdown()]: on an [AsyncIOScheduler] the call only
    hands the shutdown to the event loop and returns. *)
Definition scheduler_shutdown : M unit :=
  modify (fun w =>
    with_scheduler
      (mkScheduler (jobs (scheduler w)) (started (scheduler w))
         (is_running (scheduler w)) true) w).

(** What the event loop does when it comes to a shutdown that was handed to
    it: [BaseScheduler.shutdown] stops the instance and shuts its job store
    down, and the memory job store drops all its jobs then. On an instance
    that is stopped already the call fails inside the loop and changes
    nothing. No function of [scheduler.py] does this: it is the
    environment's turn. *)
Definition event_loop_runs_shutdown (w : World) : World :=
  let self := scheduler w in
  if shutdown_requested self then
    with_scheduler
      (mkScheduler (if started self then ∅ else jobs self) false (is_running self)
         false) w
  else w.

(** [self.scheduler.add_job(..., replace_existing=True)]. *)
Definition add_job (job : Job) : M unit :=
  modify (fun w =>
    with_scheduler
      (mkScheduler (<[j_id job := job]> (jobs (scheduler w)))
         (started (scheduler w)) (is_running (scheduler w))
         (shutdown_requested (scheduler w))) w).

(** [self.scheduler.remove_job(job_id)]. *)
Definition remove_job (job_id : string) : M unit :=
  fun w =>
    match jobs (scheduler w) !! job_id with
    | Some _ =>
        (Ok tt,
         with_scheduler
           (mkScheduler (delete job_id (jobs (scheduler w)))
              (started (scheduler w)) (is_running (scheduler w))
              (shutdown_requested (scheduler w))) w)
    | None =>
        (Raise (JobLookupError ("No job by the id of " ++ job_id ++ " was found")), w)
    end.

Definition convert_part (part : string) : option string :=
  if String.eqb part "*" then None else Some part.

Definition _parse_cron (cron_expression : value) : M cron_parts :=
  try_except
    (match cron_expression with
     | VStr expr =>
         match split expr with
         | [p0; p1; p2; p3; p4] =>
             ret (mkCronParts (convert_part p0) (convert_part p1) (convert_part p2)
                    (convert_part p3) (convert_part p4))
         | _ => raise (ValueError ("Invalid cron expression: " ++ expr))
         end
     | _ => raise (AttributeError "object has no attribute 'strip'")
     end)
    (fun e =>
       logger ERROR ("Failed to parse cron expression '" ++ str_value cron_expression
                     ++ "': " ++ exn_str e) ;;;
       raise e).

Definition _add_event_job (event : Event) : M unit :=
  try_except
    (match e_data event with
     | None =>
         (* ["cron" not in event.data] on null, a number or a boolean *)
         raise (TypeError "argument is not iterable")
     | Some data =>
         if negb (contains data "cron") then
           logger ERROR ("Event " ++ e_id event ++ " missing cron configuration")
         else
           cron <- lift (getitem data "cron") ;;
           cron_parts <- _parse_cron cron ;;
           trigger <- lift (CronTrigger cron_parts) ;;
           add_job (mkJob (e_id event) ("Scheduled Event " ++ e_id event) trigger
                      [e_id event]) ;;;
           logger INFO ("Added job for event " ++ e_id event ++ " with cron: "
                        ++ str_value cron)
     end)
    (fun e =>
       logger ERROR ("Failed to create job for event " ++ e_id event ++ ": "
                     ++ exn_str e) ;;;
       raise e).

(** [for event in scheduled_events: self._add_event_job(event)]. *)
Fixpoint add_event_jobs (scheduled_events : list Event) : M unit :=
  match scheduled_events with
  | [] => ret tt
  | event :: rest => _add_event_job event ;;; add_event_jobs rest
  end.

Definition _load_scheduled_events : M unit :=
  try_except
    (scheduled_events <- EventRepository.get_scheduled_events ;;
     logger INFO ("Loading " ++ pretty (length scheduled_events)
                  ++ " scheduled events") ;;;
     add_event_jobs scheduled_events)
    (fun e => logger ERROR ("Failed to load scheduled events: " ++ exn_str e)).

Definition start : M unit :=
  self <- get_self ;;
  if is_running self then
    logger WARNING "Scheduler is already running"
  else
    try_except
      (_load_scheduled_events ;;;
       scheduler_start ;;;
       set_is_running true ;;;
       logger INFO "Notification scheduler started successfully")
      (fun e =>
         logger ERROR ("Failed to start scheduler: " ++ exn_str e) ;;;
         raise e).

Definition stop : M unit :=
  self <- get_self ;;
  if negb (is_running self) then
    logger WARNING "Scheduler is not running"
  else
    try_except
      (scheduler_shutdown ;;;
       set_is_running false ;;;
       logger INFO "Notification scheduler stopped successfully")
      (fun e =>
         logger ERROR ("Failed to stop scheduler: " ++ exn_str e) ;;;
         raise e).

Definition add_scheduled_event (event : Event) : M bool :=
  self <- get_self ;;
  if negb (is_running self) then
    logger WARNING "Scheduler is not running, cannot add event" ;;;
    ret false
  else
    try_except
      (_add_event_job event ;;;
       logger INFO ("Added scheduled event " ++ e_id event) ;;;
       ret true)
      (fun e =>
         logger ERROR ("Failed to add scheduled event " ++ e_id event ++ ": "
                       ++ exn_str e) ;;;
         ret false).

Definition remove_scheduled_event (event_id : string) : M bool :=
  try_except
    (remove_job event_id ;;;
     logger INFO ("Removed scheduled event " ++ event_id) ;;;
     ret true)
    (fun e =>
       logger ERROR ("Failed to remove scheduled event " ++ event_id ++ ": "
                     ++ exn_str e) ;;;
       ret false).

Definition update_scheduled_event (event : Event) : M bool :=
  try_except
    (remove_scheduled_event (e_id event) ;;;
     add_scheduled_event event)
    (fun e =>
       logger ERROR ("Failed to update scheduled event " ++ e_id event ++ ": "
                     ++ exn_str e) ;;;
       ret false).

Definition _create_event_instance (event : Event) : M (option BaseEvent) :=
  try_except
    (instance <- lift (DailyStatEvent.init event) ;;
     ret (Some instance))
    (fun e =>
       logger ERROR ("Failed to create event instance: " ++ exn_str e) ;;;
       ret None).

(** [for notification in notifications:
       results.append(notification_service.send_notification(notification))]. *)
Fixpoint send_each (service : NotificationService.t) (notifications : list Notification)
    : M (list bool) :=
  match notifications with
  | [] => ret []
  | notification :: rest =>
      success <- NotificationService.send_notification service notification ;;
      results <- send_each service rest ;;
      ret (success :: results)
  end.

(** [sum(results)]. *)
Definition sum (results : list bool) : nat :=
  length (List.filter (fun b => b) results).

Definition process_scheduled_event (event_id : string) : M unit :=
  try_except
    (logger INFO ("Processing scheduled event " ++ event_id) ;;;
     let notification_service := NotificationService.default written printed in
     event <- EventRepository.get_scheduled_event_by_id event_id ;;
     match event with
     | None =>
         logger ERROR ("Scheduled event " ++ event_id ++ " not found in database")
     | Some event =>
         event_instance <- _create_event_instance event ;;
         match event_instance with
         | None =>
             logger ERROR ("Failed to create event instance for " ++ event_id)
         | Some event_instance =>
             notifications <- create_notifications tm event_instance ;;
             results <- send_each notification_service notifications ;;
             let successful_sends := sum results in
             logger INFO ("Scheduled event " ++ event_id ++ " processed: "
                          ++ pretty successful_sends ++ "/" ++ pretty (length results)
                          ++ " notifications sent successfully")
         end
     end)
    (fun e =>
       logger ERROR ("Failed to process scheduled event " ++ event_id ++ ": "
                     ++ exn_str e)).

End WithCronTrigger.

End NotificationScheduler.

(** ** routes/events.py *)

Module EventsRoutes.

(** The character classes of the identifier pattern. *)
Definition is_letter_ (c : ascii) : bool :=
  let n := nat_of_ascii c in
  ((65 <=? n) && (n <=? 90) || (97 <=? n) && (n <=? 122) || (n =? 95))%nat.

Definition is_word (c : ascii) : bool :=
  let n := nat_of_ascii c in
  (is_letter_ c || (48 <=? n) && (n <=? 57))%nat.

(** The tail of the pattern: word characters up to the end, where the end
    is also matched just before a final newline, as Python's [re] does. *)
Fixpoint match_word_tail (s : string) : bool :=
  match s with
  | EmptyString => true
  | String c rest =>
      match rest with
      | EmptyString => is_word c || (nat_of_ascii c =? 10)%nat
      | _ => is_word c && match_word_tail rest
      end
  end.

(** [re.match] of the identifier pattern, a letter or underscore followed
    by word characters, anchored at both ends. *)
Definition match_identifier (v : string) : bool :=
  match v with
  | EmptyString => false
  | String c rest => is_letter_ c && match_word_tail rest
  end.

(** The constraints of a [source] or [event_type] field: its length and
    the validator. *)
Definition validate_identifiers (v : string) : bool :=
  (1 <=? String.length v)%nat && (String.length v <=? 100)%nat && match_identifier v.

(** The validator of the [cron] field. *)
Definition validate_cron (v : string) : bool :=
  (length (split v) =? 5)%nat.

Record EventResponse : Type := mkEventResponse {
  r_status : string;
  r_message : string;
  r_event_id : string
}.

(** What a route gives back: its response, or the [HTTPException] it
    raises. *)
Inductive http (A : Type) : Type :=
  | Returned (a : A)
  | HTTPException (status_code : Z) (detail : string).
Arguments Returned {A} a.
Arguments HTTPException {A} status_code detail.

Section WithDependencies.

Variable CronTrigger : cron_parts -> result cron_parts.
Variable tm : TemplateManager.
Variables written printed : bool.

(** [for notification in notifications:
       notification_service.send_notification(notification)]. *)
Fixpoint send_all (service : NotificationService.t) (notifications : list Notification)
    : M unit :=
  match notifications with
  | [] => ret tt
  | notification :: rest =>
      NotificationService.send_notification service notification ;;;
      send_all service rest
  end.

(** The two [except] clauses of a route: a [ValueError] is answered with
    400, anything else is logged and answered with 500. *)
Definition answer_exception (what : string) (e : exn) : M (http EventResponse) :=
  match e with
  | ValueError msg => ret (HTTPException 400 msg)
  | _ =>
      logger ERROR (what ++ exn_str e) ;;;
      ret (HTTPException 500 ("Internal server error: " ++ exn_str e))
  end.

Definition real_time_event (source event_type : string) (data : gmap string value)
    : M (http EventResponse) :=
  let notification_service := NotificationService.default written printed in
  try_except
    (logger INFO "Received request to process a real-time event" ;;;
     let event_data :=
       data ∪ <["event_type" := VStr event_type]> (<["source" := VStr source]> ∅) in
     event <- EventRepository.create_event "realtime" (Some event_data) ;;
     logger INFO ("Real-time event created with ID: " ++ e_id event) ;;;
     notifications <- EventManager.process_realtime_event tm event_data ;;
     send_all notification_service notifications ;;;
     logger INFO ("Real-time event " ++ e_id event ++ " processed immediately") ;;;
     ret (Returned (mkEventResponse "success" "Real-time event processed successfully"
                      (e_id event))))
    (answer_exception "Error processing real-time event: ").

(** In [scheduled_event] the [HTTPException] for a failed registration is
    raised inside the [try], so the last [except] clause answers it: it
    logs and raises a 500 of its own around the text of the first. *)
Definition scheduled_event (source cron : string) (data : gmap string value)
    (enabled : option bool) : M (http EventResponse) :=
  try_except
    (logger INFO "Received request to create a scheduled event" ;;;
     logger INFO ("Creating scheduled event: " ++ source ++ " with cron " ++ cron) ;;;
     let event_data :=
       data ∪ <["cron" := VStr cron]> (<["source" := VStr source]> ∅) in
     event <- EventRepository.create_event "scheduled" (Some event_data) ;;
     logger INFO ("Scheduled event created with ID: " ++ e_id event) ;;;
     success <-
       match enabled with
       | Some true => NotificationScheduler.add_scheduled_event CronTrigger event
       | _ => ret true
       end ;;
     if negb success then
       let failure := "500: Failed to register event with scheduler" in
       logger ERROR ("Error creating scheduled event: " ++ failure) ;;;
       ret (HTTPException 500 ("Internal server error: " ++ failure))
     else
       logger INFO ("Scheduled event " ++ e_id event ++ " registered with scheduler") ;;;
       ret (Returned (mkEventResponse "success" "Scheduled event created successfully"
                        (e_id event))))
    (answer_exception "Error creating scheduled event: ").

End WithDependencies.

End EventsRoutes.

(** * Vocabulary of the statements *)

(** The orchestrator as the pipeline builds it, for any registry of
    channels: the shipped deduplication manager, the given channels. *)
Definition service (channels : gmap string BaseChannel) : NotificationService.t :=
  NotificationService.mkService channels DeduplicationManager._policies.

(** The row [create_from_instance] writes for a draft. *)
Definition stored (n : Notification) : Notification :=
  set_subject (Some (NotificationRepository.str_or (n_subject n) "No Subject")) n.

(** The world right after the draft was persisted. *)
Definition after_insert (n : Notification) (w : World) : World :=
  (NotificationRepository.create_from_instance n w).2.

(** The decision of the deduplication manager, asked right after the draft
    was persisted: [true] when it says not to send. *)
Definition suppressed (n : Notification) (w : World) : bool :=
  match (DeduplicationManager.handle DeduplicationManager._policies (stored n)
           (after_insert n w)).1 with
  | Ok false => true
  | _ => false
  end.

(** The statuses committed for the row [id], oldest first. *)
Definition status_history (id : uuid) (w : World) : list NotificationStatus :=
  (List.filter (fun c => String.eqb c.1 id) (commits w)).*2.

(** A draft the insert accepts: no stored row has its id, and its recipient
    is a value the database can bind. *)
Definition storable (n : Notification) (w : World) : Prop :=
  notifications w !! n_id n = None
  /\ NotificationRepository.bind_error (n_recipient n) = None.

(** The three tables. *)
Definition tables (w : World)
    : gmap string Notification * list DeduplicationLog * list Event :=
  (notifications w, deduplication_logs w, events w).
(** * Concrete worlds, used to run the code *)

(** A clock that advances one second per reading. *)
Definition ex_clock (k : nat) : Z := 1000000 * Z.of_nat k.

Definition ex_uuids (k : nat) : string := "uuid-" ++ pretty k.

Definition ex_world (t : gmap string Notification) (evs : list Event) : World :=
  mkWorld t [] evs ex_clock 0 ex_uuids 0 [] [] (mkScheduler ∅ false false false).

(** A notification that was sent at time 0. *)
Definition ex_first : Notification :=
  mkNotification "n1" "e1" "user_welcome_email.j2" "email" (VStr "ann@example.org")
    (Some "No Subject") "Welcome" "hash-of-welcome" SENT 0 (Some 0).

(** A draft with the content of [ex_first], for another recipient. *)
Definition ex_second : Notification :=
  mkNotification "n2" "e2" "user_welcome_slack_message.j2" "slack" (VStr "#general")
    None "Welcome" "hash-of-welcome" PENDING 0 None.

(** A draft with a content of its own, for the email channel. *)
Definition ex_third : Notification :=
  mkNotification "n3" "e3" "user_welcome_email.j2" "email" (VStr "bob@example.org")
    (Some "Hello") "Hello Bob" "hash-of-hello-bob" PENDING 0 None.

(** A draft for a channel that is not registered. *)
Definition ex_fourth : Notification :=
  mkNotification "n4" "e3" "user_welcome_email.j2" "sms" (VStr "555")
    (Some "") "Hello" "hash-of-hello" PENDING 0 None.

(** A draft whose recipient is a list, as a sign-up request can carry it,
    and a draft with the id of [ex_first]. *)
Definition ex_sixth : Notification :=
  mkNotification "n6" "e3" "user_welcome_email.j2" "email"
    (VList [VStr "bob@example.org"; VStr "eve@example.org"])
    None "Hello both" "hash-of-hello-both" PENDING 0 None.

Definition ex_again : Notification :=
  mkNotification "n1" "e4" "user_welcome_email.j2" "email" (VStr "ann@example.org")
    None "Welcome back" "hash-of-welcome-back" PENDING 5000000 None.

(** The empty database, and the database holding [ex_first]. *)
Definition ex_empty : World := ex_world ∅ [].

Definition ex_sent_first : World := ex_world (<["n1" := ex_first]> ∅) [].

(** The shipped channels when the email channel cannot write its file. *)
Definition ex_channels : gmap string BaseChannel :=
  ChannelManager._get_channels false true.

(** * Vocabulary of the classifier and scheduler statements *)

(** The keys the constructor of a handler class requires in [data]. *)
Definition required_keys (cls : EventClass) : list string :=
  match cls with
  | DailyStatEvent_cls => ["cron"; "query"; "recipient"; "slack_channel"]
  | SignupEvent_cls => ["user_name"; "email"; "service_name"; "recipient"; "slack_channel"]
  end.






(** A sign-up event without the [email] field. *)
Definition ex_signup_data : gmap string value :=
  list_to_map
    [("source", VStr "user_signup"); ("event_type", VStr "signup");
     ("user_name", VStr "bob"); ("service_name", VStr "notif");
     ("recipient", VStr "bob@example.org"); ("slack_channel", VStr "#general")].




Definition ex_templates : TemplateManager :=
  mkTemplateManager (fun template_id _ => Ok ("rendered " ++ template_id))
    (fun content => "sha256:" ++ content).

(** Scheduled events: one whose cron expression has four fields, a
    well-formed daily statistics event, one without [cron], and one whose
    declared source is [user_signup]. *)
Definition ex_bad_cron : Event :=
  mkEvent "e1" "scheduled"
    (Some (list_to_map
       [("source", VStr "daily_stat"); ("cron", VStr "0 9 * *"); ("query", VStr "q");
        ("recipient", VStr "ops@example.org"); ("slack_channel", VStr "#ops")]))
    0 None false false.

Definition ex_daily : Event :=
  mkEvent "e2" "scheduled"
    (Some (list_to_map
       [("source", VStr "daily_stat"); ("cron", VStr "0 9 * * *"); ("query", VStr "q");
        ("recipient", VStr "ops@example.org"); ("slack_channel", VStr "#ops")]))
    0 None false false.

Definition ex_no_cron : Event :=
  mkEvent "e0" "scheduled"
    (Some (list_to_map [("source", VStr "daily_stat"); ("query", VStr "q")]))
    0 None false false.

Definition ex_scheduled_signup : Event :=
  mkEvent "e3" "scheduled"
    (Some (list_to_map
       [("source", VStr "user_signup"); ("cron", VStr "0 9 * * *");
        ("user_name", VStr "bob"); ("email", VStr "bob@example.org");
        ("service_name", VStr "notif"); ("query", VStr "q");
        ("recipient", VStr "bob@example.org"); ("slack_channel", VStr "#general")]))
    0 None false false.

(** A cron trigger constructor that accepts every field. *)
Definition ex_CronTrigger (parts : cron_parts) : result cron_parts := Ok parts.

(** * Vocabulary of the further properties *)

(** The five keyword arguments of a trigger, in the order of the fields. *)
Definition fields_of (parts : cron_parts) : list (option string) :=
  [minute parts; hour parts; day parts; month parts; day_of_week parts].

(** The job [_add_event_job] stores for an event, given the trigger. *)
Definition job_for (event : Event) (trigger : cron_parts) : Job :=
  mkJob (e_id event) ("Scheduled Event " ++ e_id event) trigger [e_id event].

(** The keyword arguments for five fields. *)
Definition parts_of (p0 p1 p2 p3 p4 : string) : cron_parts :=
  mkCronParts (NotificationScheduler.convert_part p0)
    (NotificationScheduler.convert_part p1) (NotificationScheduler.convert_part p2)
    (NotificationScheduler.convert_part p3) (NotificationScheduler.convert_part p4).

(** The scheduler with one more job, replacing any job of the same id. *)
Definition with_job (job : Job) (w : World) : World :=
  with_scheduler
    (mkScheduler (<[j_id job := job]> (jobs (scheduler w)))
       (started (scheduler w)) (is_running (scheduler w))
       (shutdown_requested (scheduler w))) w.

(** A world whose scheduler runs, with a job for [ex_daily]. *)
Definition ex_running : World :=
  mkWorld ∅ [] [ex_daily] ex_clock 0 ex_uuids 0 [] []
    (mkScheduler (<["e2" := job_for ex_daily (parts_of "0" "9" "*" "*" "*")]> ∅)
       true true false).

(** [ex_daily] after its cron expression was changed to one of four fields. *)
Definition ex_daily_bad : Event :=
  mkEvent "e2" "scheduled"
    (Some (list_to_map
       [("source", VStr "daily_stat"); ("cron", VStr "0 9 * *"); ("query", VStr "q");
        ("recipient", VStr "ops@example.org"); ("slack_channel", VStr "#ops")]))
    0 None false false.

(** An event [_add_event_job] registers: its data holds a cron string of
    five fields that the trigger constructor accepts. And an event it
    skips: its data has no [cron] key. *)
Definition registrable (CronTrigger : cron_parts -> result cron_parts) (event : Event)
    : Prop :=
  exists data expr p0 p1 p2 p3 p4 trigger,
    e_data event = Some data
    /\ data !! "cron" = Some (VStr expr)
    /\ split expr = [p0; p1; p2; p3; p4]
    /\ CronTrigger (parts_of p0 p1 p2 p3 p4) = Ok trigger.

Definition without_cron (event : Event) : Prop :=
  exists data, e_data event = Some data /\ data !! "cron" = None.

(** The events table with [ex_no_cron] and [ex_daily], scheduler stopped. *)
Definition ex_two_events : World := ex_world ∅ [ex_no_cron; ex_daily].

(** A second draft with the content of [ex_second]. *)
Definition ex_fifth : Notification :=
  mkNotification "n5" "e2" "user_welcome_slack_message.j2" "slack" (VStr "#random")
    None "Welcome" "hash-of-welcome" PENDING 1000000 None.

(** The statistics of a world, and the world after [ex_third] was sent. *)
Definition stats_of (w : World) : NotificationRepository.Stats :=
  match (NotificationRepository.get_stats w).1 with
  | Ok stats => stats
  | Raise _ => NotificationRepository.mkStats 0 0 0 0 0
  end.

Definition ex_after_third : World :=
  (NotificationService.send_notification (service ex_channels) ex_third ex_sent_first).2.

(** The handler [SignupEvent] builds from [ex_scheduled_signup]. *)
Definition ex_signup_handler : BaseEvent :=
  mkBaseEvent SignupEvent_cls "user_signup"
    (list_to_map
       [("source", VStr "user_signup"); ("cron", VStr "0 9 * * *");
        ("user_name", VStr "bob"); ("email", VStr "bob@example.org");
        ("service_name", VStr "notif"); ("query", VStr "q");
        ("recipient", VStr "bob@example.org"); ("slack_channel", VStr "#general")])
    "e3" None.

(** The key of the event's data a draft's recipient is read from. *)
Definition recipient_key (channel : string) : string :=
  if String.eqb channel "email" then "recipient" else "slack_channel".

(** * The orchestrator, branch by branch *)

Ltac unfold_service :=
  unfold NotificationService.send_notification,
    NotificationService.send_notification_in_session, on_active_session, service,
    stry_except, sbind, sret, plain, repo, try_except, bind, logger, modify,
    NotificationRepository.create_from_instance, NotificationRepository.db_add,
    NotificationRepository.update_status, NotificationRepository.get,
    raise, lift, ret, utcnow, bind.

Section OrchestratorFacts.
Variable channels : gmap string BaseChannel.

Lemma create_from_instance_fresh n w :
  storable n w ->
  NotificationRepository.create_from_instance n w
  = (Ok (stored n), commit_notification (n_id n) (stored n) w).
Proof.
  intros [Hf Hb].
  unfold NotificationRepository.create_from_instance, NotificationRepository.db_add,
    bind, ret.
  change (n_recipient (set_subject _ n)) with (n_recipient n).
  change (n_id (set_subject _ n)) with (n_id n).
  rewrite Hb, Hf. reflexivity.
Qed.

(** The insert fails exactly for a draft that is not storable, and then
    changes nothing. *)
Lemma create_from_instance_refused n w :
  ~ storable n w ->
  exists e, NotificationRepository.create_from_instance n w = (Raise e, w).
Proof.
  intros Hn.
  unfold NotificationRepository.create_from_instance, NotificationRepository.db_add,
    bind, ret.
  change (n_recipient (set_subject _ n)) with (n_recipient n).
  change (n_id (set_subject _ n)) with (n_id n).
  destruct (NotificationRepository.bind_error (n_recipient n)) as [e|] eqn:Hb;
    [by eexists|].
  destruct (notifications w !! n_id n) as [row|] eqn:Hf; [by eexists|].
  exfalso. apply Hn. split; assumption.
Qed.

Lemma storable_dec n w : storable n w \/ ~ storable n w.
Proof.
  unfold storable.
  destruct (notifications w !! n_id n), (NotificationRepository.bind_error (n_recipient n));
    first [left; split; reflexivity | right; intros [H1 H2]; discriminate].
Qed.

Lemma suppressed_eq n w :
  storable n w ->
  suppressed n w =
  (0 <? NotificationRepository.count_rows
         (NotificationRepository.any_filter (n_id n) (n_content_hash n)
            (clock w (ticks w) - timedelta TimeWindowPolicy.default_window_seconds))
         (<[n_id n := stored n]> (notifications w)))%nat.
Proof.
  intros Hs. unfold suppressed, after_insert.
  rewrite (create_from_instance_fresh n w Hs). unfold stored. cbn.
  change (match ?c with 0%nat => false | S _ => true end) with (0 <? c)%nat.
  match goal with |- context [(0 <? ?c)%nat] => destruct (0 <? c)%nat end; reflexivity.
Qed.

Lemma send_suppressed n w :
  storable n w ->
  suppressed n w = true ->
  let r := NotificationService.send_notification (service channels) n w in
  r.1 = Ok false
  /\ notifications r.2 =
       <[n_id n := set_sent_at (Some (clock w (2 + ticks w)%nat))
                     (set_status DUPLICATE (stored n))]> (notifications w)
  /\ deduplication_logs r.2 =
       (deduplication_logs w
        ++ [mkDeduplicationLog (uuids w (drawn w)) (n_content_hash n)
              (clock w (1 + ticks w)%nat)])%list
  /\ events r.2 = events w
  /\ ticks r.2 = (3 + ticks w)%nat
  /\ commits r.2 = (commits w ++ [(n_id n, n_status n); (n_id n, DUPLICATE)])%list
  /\ scheduler r.2 = scheduler w.
Proof.
  intros Hs Hd. rewrite suppressed_eq in Hd by done. destruct Hs as [Hf Hb].
  unfold_service. cbn. rewrite Hb, Hf. cbn.
  change (match ?c with 0%nat => false | S _ => true end) with (0 <? c)%nat.
  unfold stored in Hd. rewrite Hd. cbn. rewrite lookup_insert_eq. cbn.
  rewrite insert_insert_eq, <- app_assoc. done.
Qed.

Lemma send_dispatched n w b :
  storable n w ->
  suppressed n w = false ->
  ChannelManager.send channels (stored n) = Ok b ->
  let r := NotificationService.send_notification (service channels) n w in
  r.1 = Ok true
  /\ notifications r.2 =
       <[n_id n := set_sent_at (Some (clock w (1 + ticks w)%nat))
                     (set_status SENT (stored n))]> (notifications w)
  /\ deduplication_logs r.2 = deduplication_logs w
  /\ events r.2 = events w
  /\ ticks r.2 = (2 + ticks w)%nat
  /\ commits r.2 = (commits w ++ [(n_id n, n_status n); (n_id n, SENT)])%list
  /\ scheduler r.2 = scheduler w.
Proof.
  intros Hs Hd Hc. rewrite suppressed_eq in Hd by done. destruct Hs as [Hf Hb].
  unfold_service. cbn. rewrite Hb, Hf. cbn.
  change (match ?c with 0%nat => false | S _ => true end) with (0 <? c)%nat.
  unfold stored in Hd, Hc. rewrite Hd. cbn. rewrite Hc. cbn. rewrite lookup_insert_eq. cbn.
  rewrite insert_insert_eq, <- app_assoc. done.
Qed.

Lemma send_dispatch_raised n w e :
  storable n w ->
  suppressed n w = false ->
  ChannelManager.send channels (stored n) = Raise e ->
  let r := NotificationService.send_notification (service channels) n w in
  r.1 = Ok false
  /\ notifications r.2 =
       <[n_id n := set_status FAILED (stored n)]> (notifications w)
  /\ deduplication_logs r.2 = deduplication_logs w
  /\ events r.2 = events w
  /\ ticks r.2 = (1 + ticks w)%nat
  /\ commits r.2 = (commits w ++ [(n_id n, n_status n); (n_id n, FAILED)])%list
  /\ scheduler r.2 = scheduler w.
Proof.
  intros Hs Hd Hc. rewrite suppressed_eq in Hd by done. destruct Hs as [Hf Hb].
  unfold_service. cbn. rewrite Hb, Hf. cbn.
  change (match ?c with 0%nat => false | S _ => true end) with (0 <? c)%nat.
  unfold stored in Hd, Hc. rewrite Hd. cbn. rewrite Hc. cbn. rewrite lookup_insert_eq. cbn.
  rewrite insert_insert_eq, <- app_assoc. done.
Qed.

(** When the insert is refused, the session is inactive by the time the
    [except] branch asks for the row: [PendingRollbackError] leaves the
    call, and nothing but the log has changed. *)
Lemma send_insert_refused n w :
  ~ storable n w ->
  let r := NotificationService.send_notification (service channels) n w in
  (exists msg, r.1 = Raise (PendingRollbackError msg))
  /\ notifications r.2 = notifications w
  /\ deduplication_logs r.2 = deduplication_logs w
  /\ events r.2 = events w
  /\ ticks r.2 = ticks w
  /\ commits r.2 = commits w
  /\ scheduler r.2 = scheduler w.
Proof.
  intros Hn. destruct (create_from_instance_refused n w Hn) as [e He].
  unfold NotificationService.send_notification,
    NotificationService.send_notification_in_session, on_active_session, service,
    stry_except, sbind, sret, plain, repo, logger, modify.
  cbn -[NotificationRepository.create_from_instance NotificationRepository.update_status
        DeduplicationManager.handle].
  match goal with
  | |- context [NotificationRepository.create_from_instance n ?w1] =>
      assert (Hc : NotificationRepository.create_from_instance n w1 = (Raise e, w1))
  end.
  { revert He. unfold NotificationRepository.create_from_instance,
      NotificationRepository.db_add, bind, ret. cbn.
    destruct (NotificationRepository.bind_error (n_recipient n)); [by intros [= ->]|].
    destruct (notifications w !! n_id n); [by intros [= ->]|discriminate]. }
  rewrite Hc. cbn. split; [by eexists|done].
Qed.
End OrchestratorFacts.
(** * The time-window query *)

Section WindowFacts.

Lemma count_rows_pos (f : string * Notification -> bool) (t : gmap string Notification) :
  (0 <? NotificationRepository.count_rows f t)%nat = true
  <-> exists k row, t !! k = Some row /\ f (k, row) = true.
Proof.
  unfold NotificationRepository.count_rows. rewrite Nat.ltb_lt. split.
  - intros Hlen.
    destruct (List.filter f (map_to_list t)) as [|[k row] rest] eqn:Hfl;
      [simpl in Hlen; lia|].
    assert (Hin : In (k, row) (List.filter f (map_to_list t)))
      by (rewrite Hfl; left; reflexivity).
    apply filter_In in Hin as [Hin Hf].
    exists k, row. split; [|exact Hf].
    apply elem_of_map_to_list, list_elem_of_In, Hin.
  - intros (k & row & Hl & Hf).
    assert (Hin : In (k, row) (List.filter f (map_to_list t))).
    { apply filter_In. split; [|exact Hf].
      apply list_elem_of_In, elem_of_map_to_list, Hl. }
    destruct (List.filter f (map_to_list t)); [destruct Hin | simpl; lia].
Qed.

Lemma any_filter_true id hash threshold k row :
  NotificationRepository.any_filter id hash threshold (k, row) = true
  <-> n_content_hash row = hash /\ threshold <= n_created_at row /\ k <> id.
Proof.
  unfold NotificationRepository.any_filter. cbn.
  rewrite !andb_true_iff, negb_true_iff, String.eqb_eq, String.eqb_neq, Z.leb_le.
  tauto.
Qed.

Lemma bool_ext (a b : bool) : (a = true <-> b = true) -> a = b.
Proof. destruct a, b; intuition congruence. Qed.

Lemma any_result id hash seconds w :
  NotificationRepository.any id hash seconds w =
  (Ok (0 <? NotificationRepository.count_rows
             (NotificationRepository.any_filter id hash
                (clock w (ticks w) - timedelta seconds)) (notifications w))%nat,
   with_ticks (S (ticks w)) w).
Proof. reflexivity. Qed.

Lemma should_send_result ws n w :
  (TimeWindowPolicy.should_send ws n w).1 =
  Ok (negb (0 <? NotificationRepository.count_rows
                  (NotificationRepository.any_filter (n_id n) (n_content_hash n)
                     (clock w (ticks w) - timedelta ws)) (notifications w))%nat).
Proof. reflexivity. Qed.

Lemma should_send_false_iff ws n w :
  (TimeWindowPolicy.should_send ws n w).1 = Ok false
  <-> exists k row,
        notifications w !! k = Some row /\ k <> n_id n
        /\ n_content_hash row = n_content_hash n
        /\ clock w (ticks w) - timedelta ws <= n_created_at row.
Proof.
  rewrite should_send_result.
  split.
  - intros H. injection H as H. apply negb_false_iff in H.
    apply count_rows_pos in H as (k & row & Hl & Hf).
    apply any_filter_true in Hf. exists k, row. tauto.
  - intros (k & row & Hl & Hk & Hh & Ht). f_equal. apply negb_false_iff.
    apply count_rows_pos. exists k, row. split; [done|].
    apply any_filter_true. tauto.
Qed.

(** The decision, read off the world the attempt to insert left. *)
Lemma suppressed_after n w :
  suppressed n w =
  (0 <? NotificationRepository.count_rows
         (NotificationRepository.any_filter (n_id n) (n_content_hash n)
            (clock (after_insert n w) (ticks (after_insert n w))
             - timedelta TimeWindowPolicy.default_window_seconds))
         (notifications (after_insert n w)))%nat.
Proof.
  unfold suppressed. generalize (after_insert n w). intros w1. unfold stored. cbn.
  change (match ?c with 0%nat => false | S _ => true end) with (0 <? c)%nat.
  match goal with |- context [(0 <? ?c)%nat] => destruct (0 <? c)%nat end; reflexivity.
Qed.

Lemma suppressed_iff n w :
  notifications w !! n_id n = None ->
  suppressed n w = true
  <-> exists k row,
        notifications w !! k = Some row /\ k <> n_id n
        /\ n_content_hash row = n_content_hash n
        /\ clock w (ticks w) - timedelta TimeWindowPolicy.default_window_seconds
           <= n_created_at row.
Proof.
  intros Hf. rewrite suppressed_after, count_rows_pos.
  destruct (storable_dec n w) as [Hs | Hn].
  - unfold after_insert. rewrite (create_from_instance_fresh n w Hs). cbn. split.
    + intros (k & row & Hl & Hm). apply any_filter_true in Hm as (Hh & Ht & Hk).
      rewrite lookup_insert_ne in Hl by done. exists k, row. tauto.
    + intros (k & row & Hl & Hk & Hh & Ht). exists k, row.
      rewrite lookup_insert_ne by done. split; [done|]. apply any_filter_true. tauto.
  - unfold after_insert. destruct (create_from_instance_refused n w Hn) as [e ->]. cbn.
    split.
    + intros (k & row & Hl & Hm). apply any_filter_true in Hm as (Hh & Ht & Hk).
      exists k, row. tauto.
    + intros (k & row & Hl & Hk & Hh & Ht). exists k, row.
      split; [done|]. apply any_filter_true. tauto.
Qed.

End WindowFacts.

(** * The deduplication claims *)

(** C5. The time-window policy says not to send a candidate exactly when
    some stored notification with another id and the same content hash was
    created no earlier than [window_seconds] before the reading of the clock
    the check takes; so a candidate checked more than [window_seconds] after
    every other record of its content is sent. The window of the shipped
    policy is 60 seconds. *)
Theorem time_window_suppresses_iff (window_seconds : Z) (n : Notification) (w : World) :
  ((TimeWindowPolicy.should_send window_seconds n w).1 = Ok false
   <-> exists k row,
         notifications w !! k = Some row /\ k <> n_id n
         /\ n_content_hash row = n_content_hash n
         /\ clock w (ticks w) - timedelta window_seconds <= n_created_at row)
  /\ ((forall k row,
         notifications w !! k = Some row -> k <> n_id n ->
         n_content_hash row = n_content_hash n ->
         n_created_at row + timedelta window_seconds < clock w (ticks w)) ->
      (TimeWindowPolicy.should_send window_seconds n w).1 = Ok true)
  /\ TimeWindowPolicy.default_window_seconds = 60
  /\ DeduplicationManager._policies = [("time_window", TimeWindowPolicy.make 60)].
Proof.
  split; [apply should_send_false_iff|]. split; [|split; reflexivity].
  intros Hold. rewrite should_send_result. f_equal. apply negb_true_iff.
  apply not_true_is_false. intros Hpos.
  apply count_rows_pos in Hpos as (k & row & Hl & Hm).
  apply any_filter_true in Hm as (Hh & Ht & Hk).
  specialize (Hold k row Hl Hk Hh). lia.
Qed.


(** * Frames and histories *)

Section HistoryFacts.

Lemma status_history_extend id w w' cs :
  commits w' = (commits w ++ cs)%list ->
  status_history id w' =
  (status_history id w ++ (List.filter (fun c => String.eqb c.1 id) cs).*2)%list.
Proof.
  intros H. unfold status_history. rewrite H, List.filter_app, fmap_app. reflexivity.
Qed.

Variable channels : gmap string BaseChannel.

(** A call returns exactly for a draft the insert accepts. *)
Lemma send_returns_iff n w :
  (exists b, (NotificationService.send_notification (service channels) n w).1 = Ok b)
  <-> storable n w.
Proof.
  split.
  - intros [b Hb]. destruct (storable_dec n w) as [Hs | Hn]; [exact Hs|].
    destruct (send_insert_refused channels n w Hn) as ([msg Hr] & _). congruence.
  - intros Hs. destruct (suppressed n w) eqn:Hd.
    + exists false. apply (send_suppressed channels n w Hs Hd).
    + destruct (ChannelManager.send channels (stored n)) as [b|e] eqn:Hc.
      * exists true. apply (send_dispatched channels n w b Hs Hd Hc).
      * exists false. apply (send_dispatch_raised channels n w e Hs Hd Hc).
Qed.

(** A call touches no row but the one of its draft. *)
Lemma send_frame n w id :
  n_id n <> id ->
  let r := NotificationService.send_notification (service channels) n w in
  notifications r.2 !! id = notifications w !! id
  /\ status_history id r.2 = status_history id w.
Proof.
  intros Hne r. subst r.
  assert (Hb : String.eqb (n_id n) id = false) by (apply String.eqb_neq; exact Hne).
  destruct (storable_dec n w) as [Hs | Hn].
  - destruct (suppressed n w) eqn:Hd.
    + destruct (send_suppressed channels n w Hs Hd) as (_ & Ht & _ & _ & _ & Hc & _).
      rewrite Ht, lookup_insert_ne by done. split; [done|].
      rewrite (status_history_extend id _ _ _ Hc). cbn. rewrite Hb. cbn.
      apply app_nil_r.
    + destruct (ChannelManager.send channels (stored n)) as [b|e] eqn:Hc0.
      * destruct (send_dispatched channels n w b Hs Hd Hc0)
          as (_ & Ht & _ & _ & _ & Hc & _).
        rewrite Ht, lookup_insert_ne by done. split; [done|].
        rewrite (status_history_extend id _ _ _ Hc). cbn. rewrite Hb. cbn.
        apply app_nil_r.
      * destruct (send_dispatch_raised channels n w e Hs Hd Hc0)
          as (_ & Ht & _ & _ & _ & Hc & _).
        rewrite Ht, lookup_insert_ne by done. split; [done|].
        rewrite (status_history_extend id _ _ _ Hc). cbn. rewrite Hb. cbn.
        apply app_nil_r.
  - destruct (send_insert_refused channels n w Hn) as (_ & Ht & _ & _ & _ & Hc & _).
    rewrite Ht. split; [done|]. unfold status_history. by rewrite Hc.
Qed.

(** A call, whether it returns or raises, leaves the events and the
    scheduler. *)
Lemma send_keeps_outside n w :
  let r := NotificationService.send_notification (service channels) n w in
  events r.2 = events w /\ scheduler r.2 = scheduler w.
Proof.
  cbv zeta. destruct (storable_dec n w) as [Hs | Hn].
  - destruct (suppressed n w) eqn:Hd.
    + destruct (send_suppressed channels n w Hs Hd) as (_ & _ & _ & H1 & _ & _ & H2).
      split; assumption.
    + destruct (ChannelManager.send channels (stored n)) as [b|e] eqn:Hc.
      * destruct (send_dispatched channels n w b Hs Hd Hc)
          as (_ & _ & _ & H1 & _ & _ & H2).
        split; assumption.
      * destruct (send_dispatch_raised channels n w e Hs Hd Hc)
          as (_ & _ & _ & H1 & _ & _ & H2).
        split; assumption.
  - destruct (send_insert_refused channels n w Hn) as (_ & _ & _ & H1 & _ & _ & H2).
    split; assumption.
Qed.

(** A call leaves every row that is already stored, the row under the id of
    its own draft included: the insert is refused then. *)
Lemma send_keeps_stored n w id row :
  notifications w !! id = Some row ->
  let r := NotificationService.send_notification (service channels) n w in
  notifications r.2 !! id = Some row
  /\ status_history id r.2 = status_history id w.
Proof.
  intros Hrow r. subst r.
  destruct (decide (n_id n = id)) as [Heq | Hne].
  - assert (Hn : ~ storable n w).
    { intros [Hf _]. rewrite Heq in Hf. congruence. }
    destruct (send_insert_refused channels n w Hn) as (_ & Ht & _ & _ & _ & Hc & _).
    rewrite Ht. split; [exact Hrow|]. unfold status_history. by rewrite Hc.
  - destruct (send_frame n w id Hne) as [Ht Hh]. rewrite Ht. split; [exact Hrow|exact Hh].
Qed.

(** So does a loop over drafts, wherever it stops. *)
Lemma send_each_keeps_stored later w id row :
  notifications w !! id = Some row ->
  let r := NotificationScheduler.send_each (service channels) later w in
  notifications r.2 !! id = Some row
  /\ status_history id r.2 = status_history id w.
Proof.
  revert w. induction later as [|m later IH]; intros w Hrow; [cbn; done|].
  cbn [NotificationScheduler.send_each]. unfold bind.
  destruct (send_keeps_stored m w id row Hrow) as [Ht Hh].
  destruct (NotificationService.send_notification (service channels) m w)
    as [[b|e] w1] eqn:Hsend; cbn [fst snd] in Ht, Hh.
  - destruct (IH w1 Ht) as [Ht1 Hh1].
    destruct (NotificationScheduler.send_each (service channels) later w1)
      as [[bs|e] w2] eqn:Hrest; cbn [fst snd] in Ht1, Hh1 |- *; unfold ret; cbn [fst snd];
      (split; [exact Ht1|congruence]).
  - cbn [fst snd]. split; [exact Ht|exact Hh].
Qed.

End HistoryFacts.

(** * The orchestrator claims *)


(** C1, where the code departs from it. When the channel's [send]
    returns [False] (here the email channel failing to write its file),
    [send_notification] still records the notification as sent, with
    [sent_at] set, and returns [True]: the value [ChannelManager.send]
    returns is dropped. *)
Theorem send_returning_false_is_recorded_sent :
  let w := ex_empty in
  let r := NotificationService.send_notification (service ex_channels) ex_third w in
  suppressed ex_third w = false
  /\ ChannelManager.send ex_channels (stored ex_third) = Ok false
  /\ r.1 = Ok true
  /\ notifications r.2 !! "n3"
     = Some (set_sent_at (Some 1000000) (set_status SENT (stored ex_third))).
Proof. vm_compute. repeat split; reflexivity. Qed.

(** C2, where the code departs from it. The draft [ex_second] is persisted
    as pending and then suppressed, and [send_notification] returns false
    with the status duplicate; but the row ends with [sent_at] set, to the
    reading of the clock passed to [update_status], where the claim has no
    [sent_at] for a notification that was never sent. *)
Theorem suppressed_draft_has_sent_at :
  let w := ex_sent_first in
  let r := NotificationService.send_notification (service ex_channels) ex_second w in
  suppressed ex_second w = true
  /\ r.1 = Ok false
  /\ (n_status <$> notifications r.2 !! "n2") = Some DUPLICATE
  /\ (n_sent_at <$> notifications r.2 !! "n2") = Some (Some 2000000)
  /\ (n_sent_at <$> notifications r.2 !! "n2") <> Some None.
Proof. vm_compute. repeat split; try reflexivity. discriminate. Qed.

(** C3, where the code departs from it. When the insert of the draft is
    refused, here for [ex_sixth], whose recipient is a list, and for
    [ex_again], whose id is taken, the [except] branch of
    [send_notification] asks for the row on a session the failed flush left
    inactive: [PendingRollbackError] reaches the caller, no boolean is
    returned and no row with a terminal status is written. *)
Theorem failed_insert_escapes_send_notification :
  let r := NotificationService.send_notification (service ex_channels) ex_sixth ex_empty in
  let r_taken :=
    NotificationService.send_notification (service ex_channels) ex_again ex_sent_first in
  (exists msg, r.1 = Raise (PendingRollbackError msg))
  /\ notifications r.2 !! n_id ex_sixth = None
  /\ (exists msg, r_taken.1 = Raise (PendingRollbackError msg))
  /\ notifications r_taken.2 !! n_id ex_again = Some ex_first.
Proof.
  vm_compute. split; [eexists; reflexivity|]. split; [reflexivity|].
  split; [eexists; reflexivity|reflexivity].
Qed.

Section OrchestratorClaims.

Variable channels : gmap string BaseChannel.

(** C4. After [send_notification] returns for a draft, the stored status
    is sent, failed or duplicate; the call commits the row exactly twice,
    first as pending and then with that one terminal status; and no later
    call of [send_notification], for whatever drafts (a draft with the same
    id included) and wherever the loop over them stops, changes the status
    or adds to the history of the row. *)
Theorem status_is_terminal_and_single_shot
    (n : Notification) (w : World) (b : bool) (later : list Notification) :
  n_status n = PENDING ->
  let r := NotificationService.send_notification (service channels) n w in
  r.1 = Ok b ->
  let r' := NotificationScheduler.send_each (service channels) later r.2 in
  exists st,
    terminal st = true
    /\ (n_status <$> notifications r.2 !! n_id n) = Some st
    /\ status_history (n_id n) r.2 = (status_history (n_id n) w ++ [PENDING; st])%list
    /\ (n_status <$> notifications r'.2 !! n_id n) = Some st
    /\ status_history (n_id n) r'.2 = status_history (n_id n) r.2.
Proof.
  intros Hst r Hret r'.
  assert (Hs : storable n w)
    by (apply (proj1 (send_returns_iff channels n w)); exists b; exact Hret).
  assert (Hcore : exists st row, terminal st = true
            /\ notifications r.2 !! n_id n = Some row
            /\ n_status row = st
            /\ status_history (n_id n) r.2
               = (status_history (n_id n) w ++ [PENDING; st])%list).
  { subst r. clear Hret r'. destruct (suppressed n w) eqn:Hd.
    - destruct (send_suppressed channels n w Hs Hd) as (_ & Ht & _ & _ & _ & Hj & _).
      exists DUPLICATE. eexists. split; [done|]. split; [rewrite Ht; apply lookup_insert_eq|].
      split; [reflexivity|].
      rewrite (status_history_extend _ _ _ _ Hj). cbn.
      rewrite String.eqb_refl. cbn. by rewrite Hst.
    - destruct (ChannelManager.send channels (stored n)) as [b'|e] eqn:Hc.
      + destruct (send_dispatched channels n w b' Hs Hd Hc)
          as (_ & Ht & _ & _ & _ & Hj & _).
        exists SENT. eexists. split; [done|]. split; [rewrite Ht; apply lookup_insert_eq|].
        split; [reflexivity|].
        rewrite (status_history_extend _ _ _ _ Hj). cbn.
        rewrite String.eqb_refl. cbn. by rewrite Hst.
      + destruct (send_dispatch_raised channels n w e Hs Hd Hc)
          as (_ & Ht & _ & _ & _ & Hj & _).
        exists FAILED. eexists. split; [done|]. split; [rewrite Ht; apply lookup_insert_eq|].
        split; [reflexivity|].
        rewrite (status_history_extend _ _ _ _ Hj). cbn.
        rewrite String.eqb_refl. cbn. by rewrite Hst. }
  destruct Hcore as (st & row & Hterm & Hrow & Hrst & Hhist).
  destruct (send_each_keeps_stored channels later r.2 (n_id n) row Hrow) as [Ht' Hh'].
  fold r' in Ht', Hh'.
  exists st. split; [exact Hterm|]. split; [by rewrite Hrow; cbn; rewrite Hrst|].
  split; [exact Hhist|]. split; [by rewrite Ht'; cbn; rewrite Hrst|exact Hh'].
Qed.


End OrchestratorClaims.

Lemma status_is_terminal_and_single_shot_witness :
  let r := NotificationService.send_notification (service ex_channels) ex_third
             ex_sent_first in
  let r' := NotificationScheduler.send_each (service ex_channels)
              [ex_second; ex_third; ex_sixth] r.2 in
  exists st,
    terminal st = true
    /\ (n_status <$> notifications r.2 !! n_id ex_third) = Some st
    /\ status_history (n_id ex_third) r.2
       = (status_history (n_id ex_third) ex_sent_first ++ [PENDING; st])%list
    /\ (n_status <$> notifications r'.2 !! n_id ex_third) = Some st
    /\ status_history (n_id ex_third) r'.2 = status_history (n_id ex_third) r.2.
Proof.
  exact (status_is_terminal_and_single_shot ex_channels ex_third ex_sent_first true
           [ex_second; ex_third; ex_sixth]
           ltac:(vm_compute; reflexivity)
           ltac:(vm_compute; reflexivity)).
Defined.


(** * The classifier *)

Section ClassifierFacts.




End ClassifierFacts.




(** * The scheduler *)

(** C7, where the code departs from it. With a malformed cron expression
    on the first persisted scheduled event, [start] logs the failure and
    flips to running, but the well-formed event after it gets no job:
    [_add_event_job] re-raises and the [try] of [_load_scheduled_events]
    encloses the whole loop. Alone, or after an event that merely lacks
    [cron], the same event is registered. *)
Theorem malformed_cron_drops_later_events :
  let start := NotificationScheduler.start ex_CronTrigger in
  let r := start (ex_world ∅ [ex_bad_cron; ex_daily]) in
  let r_alone := start (ex_world ∅ [ex_daily]) in
  let r_after_skip := start (ex_world ∅ [ex_no_cron; ex_daily]) in
  r.1 = Ok tt
  /\ is_running (scheduler r.2) = true
  /\ jobs (scheduler r.2) !! "e2" = None
  /\ last (log r.2)
     = Some (mkLog INFO "Notification scheduler started successfully")
  /\ is_Some (jobs (scheduler r_alone.2) !! "e2")
  /\ is_Some (jobs (scheduler r_after_skip.2) !! "e2").
Proof. vm_compute. repeat split; try reflexivity; eexists; reflexivity. Qed.

(** C8 as stated fails: for a scheduled event whose declared source is
    [user_signup] the classifier gives the sign-up handler, but the job
    builds the daily statistics handler and sends its one Slack report. *)
Lemma scheduled_job_ignores_source :
  let r := NotificationScheduler.process_scheduled_event ex_templates true true "e3"
             (ex_world ∅ [ex_scheduled_signup]) in
  (h_class <$> match EventManager.create_event_source ex_scheduled_signup with
               | Ok h => Some h
               | Raise _ => None
               end) = Some SignupEvent_cls
  /\ (h_class <$> match DailyStatEvent.init ex_scheduled_signup with
                  | Ok h => Some h
                  | Raise _ => None
                  end) = Some DailyStatEvent_cls
  /\ r.1 = Ok tt
  /\ (n_template_id <$> (map_to_list (notifications r.2)).*2)
     = ["daily_statistics_report.j2"].
Proof. vm_compute. repeat split; reflexivity. Qed.

(** C8, amended. A triggered job reloads the event by its id; if the
    event is gone it logs and returns, and no exception escapes the job in
    any case. For an event that is there, the handler is built by the
    constructor of the daily statistics handler, whatever source the event
    declares (if the constructor fails, the job logs and returns); the job
    then calls [create_notifications] on that handler and sends each draft
    through the orchestrator. *)
Theorem scheduled_job_builds_daily_stat_handler
    (tm : TemplateManager) (written printed : bool) (event_id : string) (w : World) :
  let job := NotificationScheduler.process_scheduled_event tm written printed event_id in
  let service := NotificationService.default written printed in
  let started := mkLog INFO ("Processing scheduled event " ++ event_id) in
  (exists w', job w = (Ok tt, w'))
  /\ ((EventRepository.get_scheduled_event_by_id event_id w).1 = Ok None ->
      job w
      = (Ok tt,
         with_log
           (log w ++ [started;
                      mkLog ERROR ("Scheduled event " ++ event_id
                                   ++ " not found in database")])%list w))
  /\ (forall event,
        (EventRepository.get_scheduled_event_by_id event_id w).1 = Ok (Some event) ->
        (forall e,
           DailyStatEvent.init event = Raise e ->
           job w
           = (Ok tt,
              with_log
                (log w ++ [started;
                           mkLog ERROR ("Failed to create event instance: "
                                        ++ exn_str e);
                           mkLog ERROR ("Failed to create event instance for "
                                        ++ event_id)])%list w))
        /\ (forall h,
              DailyStatEvent.init event = Ok h ->
              h_class h = DailyStatEvent_cls
              /\ h_event_id h = e_id event
              /\ job w
                 = try_except
                     (notifications <- create_notifications tm h ;;
                      results <- NotificationScheduler.send_each service notifications ;;
                      logger INFO
                        ("Scheduled event " ++ event_id ++ " processed: "
                         ++ pretty (NotificationScheduler.sum results) ++ "/"
                         ++ pretty (length results)
                         ++ " notifications sent successfully"))
                     (fun e =>
                        logger ERROR ("Failed to process scheduled event " ++ event_id
                                      ++ ": " ++ exn_str e))
                     (with_log (log w ++ [started])%list w))).
Proof.
  intros job service started. split; [|split].
  - subst job. unfold NotificationScheduler.process_scheduled_event, try_except.
    match goal with
    | |- exists w', (match ?body w with _ => _ end) = _ =>
        destruct (body w) as [[[]|e] w1]
    end.
    + by eexists.
    + unfold logger, modify. by eexists.
  - subst job started.
    unfold NotificationScheduler.process_scheduled_event, try_except, bind, logger,
      modify, EventRepository.get_scheduled_event_by_id.
    cbn. intros [= ->]. cbn. by rewrite <- app_assoc.
  - intros event. subst job started service.
    unfold NotificationScheduler.process_scheduled_event,
      NotificationScheduler._create_event_instance, try_except, bind, logger,
      modify, lift, ret, EventRepository.get_scheduled_event_by_id.
    cbn -[DailyStatEvent.init create_notifications NotificationScheduler.send_each
          NotificationService.default pretty].
    intros [= ->]. split.
    + intros e ->.
      cbn -[create_notifications NotificationScheduler.send_each
            NotificationService.default pretty].
      by rewrite <- !app_assoc.
    + intros h Hh. rewrite Hh. split; [|split].
      * unfold DailyStatEvent.init, ScheduleEvent.init in Hh.
        destruct (e_data event); [|done].
        destruct (negb _); [done|]. destruct (_ || _); [done|]. by injection Hh as <-.
      * unfold DailyStatEvent.init, ScheduleEvent.init in Hh.
        destruct (e_data event); [|done].
        destruct (negb _); [done|]. destruct (_ || _); [done|]. by injection Hh as <-.
      * reflexivity.
Qed.

(** * Further properties: cron expressions *)

Lemma parse_cron_cases (expr : string) (w : World) :
  (length (split expr) = 5%nat
   /\ exists parts,
        NotificationScheduler._parse_cron (VStr expr) w = (Ok parts, w)
        /\ fields_of parts = NotificationScheduler.convert_part <$> split expr)
  \/ (length (split expr) <> 5%nat
      /\ NotificationScheduler._parse_cron (VStr expr) w
         = (Raise (ValueError ("Invalid cron expression: " ++ expr)),
            with_log
              (log w ++ [mkLog ERROR
                           ("Failed to parse cron expression '" ++ expr ++ "': "
                            ++ "Invalid cron expression: " ++ expr)])%list w)).
Proof.
  unfold NotificationScheduler._parse_cron, try_except.
  destruct (split expr) as [|p0 [|p1 [|p2 [|p3 [|p4 [|p5 rest]]]]]] eqn:Hs;
    try (right; split; [cbn; lia|reflexivity]).
  left. split; [reflexivity|]. eexists. split; reflexivity.
Qed.

(** X2. [_parse_cron] accepts exactly the expressions with five
    whitespace-separated fields, and gives each field as it is except that
    a star becomes the wildcard; any other expression raises the
    invalid-expression [ValueError] after one error record was logged, and
    nothing else changes. *)
Theorem parse_cron_accepts_five_fields (expr : string) (w : World) :
  (length (split expr) = 5%nat
   /\ exists parts,
        NotificationScheduler._parse_cron (VStr expr) w = (Ok parts, w)
        /\ fields_of parts = NotificationScheduler.convert_part <$> split expr)
  \/ (length (split expr) <> 5%nat
      /\ NotificationScheduler._parse_cron (VStr expr) w
         = (Raise (ValueError ("Invalid cron expression: " ++ expr)),
            with_log
              (log w ++ [mkLog ERROR
                           ("Failed to parse cron expression '" ++ expr ++ "': "
                            ++ "Invalid cron expression: " ++ expr)])%list w)).
Proof. apply parse_cron_cases. Qed.

(** X3. The validator of the [cron] field of a request accepts a string
    exactly when [_parse_cron] of the scheduler parses it. *)
Theorem validate_cron_agrees_with_parse_cron (v : string) (w : World) :
  EventsRoutes.validate_cron v = true
  <-> exists parts, (NotificationScheduler._parse_cron (VStr v) w).1 = Ok parts.
Proof.
  unfold EventsRoutes.validate_cron. rewrite Nat.eqb_eq.
  destruct (parse_cron_cases v w) as [[Hl (parts & Hp & _)] | [Hl Hp]];
    rewrite Hp; cbn.
  - split; [by exists parts|done].
  - split; [done|]. by intros [parts [=]].
Qed.

(** * Further properties: the scheduler's jobs *)

Section JobFacts.

Variable CronTrigger : cron_parts -> result cron_parts.

Lemma add_event_job_registers event data expr p0 p1 p2 p3 p4 trigger w :
  e_data event = Some data ->
  data !! "cron" = Some (VStr expr) ->
  split expr = [p0; p1; p2; p3; p4] ->
  CronTrigger (parts_of p0 p1 p2 p3 p4) = Ok trigger ->
  NotificationScheduler._add_event_job CronTrigger event w
  = (Ok tt,
     with_log
       (log w ++ [mkLog INFO ("Added job for event " ++ e_id event ++ " with cron: "
                              ++ expr)])%list
       (with_job (job_for event trigger) w)).
Proof.
  intros Hd Hc Hs Ht.
  unfold NotificationScheduler._add_event_job, NotificationScheduler._parse_cron,
    try_except, bind, lift, getitem, contains, NotificationScheduler.add_job, logger,
    modify, ret.
  rewrite Hd, Hc. cbn. rewrite Hs. cbn. unfold parts_of in Ht. rewrite Ht. reflexivity.
Qed.

Lemma add_event_job_without_cron event data w :
  e_data event = Some data ->
  data !! "cron" = None ->
  NotificationScheduler._add_event_job CronTrigger event w
  = (Ok tt,
     with_log
       (log w ++ [mkLog ERROR ("Event " ++ e_id event ++ " missing cron configuration")])%list
       w).
Proof.
  intros Hd Hc.
  unfold NotificationScheduler._add_event_job, try_except, contains, logger, modify.
  rewrite Hd, Hc. reflexivity.
Qed.

Lemma add_event_job_malformed event data expr w :
  e_data event = Some data ->
  data !! "cron" = Some (VStr expr) ->
  length (split expr) <> 5%nat ->
  exists l,
    NotificationScheduler._add_event_job CronTrigger event w
    = (Raise (ValueError ("Invalid cron expression: " ++ expr)), with_log (log w ++ l)%list w).
Proof.
  intros Hd Hc Hs.
  destruct (parse_cron_cases expr w) as [[Hl _] | [_ Hp]]; [done|].
  unfold NotificationScheduler._add_event_job, try_except, bind, lift, getitem, contains,
    logger, modify, raise.
  rewrite Hd, Hc. cbn -[NotificationScheduler._parse_cron].
  unfold try_except in Hp. rewrite Hp. cbn. eexists. rewrite <- app_assoc. reflexivity.
Qed.

Lemma add_event_job_rejected event data expr p0 p1 p2 p3 p4 e w :
  e_data event = Some data ->
  data !! "cron" = Some (VStr expr) ->
  split expr = [p0; p1; p2; p3; p4] ->
  CronTrigger (parts_of p0 p1 p2 p3 p4) = Raise e ->
  exists l,
    NotificationScheduler._add_event_job CronTrigger event w
    = (Raise e, with_log (log w ++ l)%list w).
Proof.
  intros Hd Hc Hs Ht.
  unfold NotificationScheduler._add_event_job, NotificationScheduler._parse_cron,
    try_except, bind, lift, getitem, contains, NotificationScheduler.add_job, logger,
    modify, ret, raise.
  rewrite Hd, Hc. cbn. rewrite Hs. cbn. unfold parts_of in Ht. rewrite Ht. cbn.
  eexists. reflexivity.
Qed.

End JobFacts.

Section JobProperties.

Variable CronTrigger : cron_parts -> result cron_parts.

(** X4. On a scheduler that is not running, [add_scheduled_event] returns
    false, registers no job and changes nothing but the log, which gets one
    warning. *)
Theorem add_scheduled_event_when_stopped (event : Event) (w : World) :
  is_running (scheduler w) = false ->
  NotificationScheduler.add_scheduled_event CronTrigger event w
  = (Ok false,
     with_log (log w ++ [mkLog WARNING "Scheduler is not running, cannot add event"])%list
       w).
Proof.
  intros Hr.
  unfold NotificationScheduler.add_scheduled_event, NotificationScheduler.get_self, bind.
  rewrite Hr. reflexivity.
Qed.

(** X5. On a running scheduler, [add_scheduled_event] for an event whose
    cron expression has five fields the trigger constructor accepts returns
    true and stores one job under the event's id, with the event's id as its
    argument, replacing any job of that id; the other jobs are kept and the
    tables are not touched. *)
Theorem add_scheduled_event_registers
    (event : Event) (data : gmap string value) (expr p0 p1 p2 p3 p4 : string)
    (trigger : cron_parts) (w : World) :
  is_running (scheduler w) = true ->
  e_data event = Some data ->
  data !! "cron" = Some (VStr expr) ->
  split expr = [p0; p1; p2; p3; p4] ->
  CronTrigger (parts_of p0 p1 p2 p3 p4) = Ok trigger ->
  let r := NotificationScheduler.add_scheduled_event CronTrigger event w in
  r.1 = Ok true
  /\ jobs (scheduler r.2) !! e_id event = Some (job_for event trigger)
  /\ (forall id, id <> e_id event ->
        jobs (scheduler r.2) !! id = jobs (scheduler w) !! id)
  /\ is_running (scheduler r.2) = true
  /\ tables r.2 = tables w.
Proof.
  intros Hr Hd Hc Hs Ht r. subst r.
  unfold NotificationScheduler.add_scheduled_event, NotificationScheduler.get_self, bind,
    try_except.
  rewrite Hr. cbn -[NotificationScheduler._add_event_job].
  rewrite (add_event_job_registers CronTrigger event data expr p0 p1 p2 p3 p4 trigger w
             Hd Hc Hs Ht).
  cbn. split; [done|]. split; [apply lookup_insert_eq|].
  split; [|done]. intros id Hid. by apply lookup_insert_ne.
Qed.

(** X6. On a running scheduler, [add_scheduled_event] for an event without
    a [cron] key returns true although no job is registered: the scheduler
    and the tables are as before, and the log gets the error of
    [_add_event_job] followed by the success record. *)
Theorem add_scheduled_event_without_cron
    (event : Event) (data : gmap string value) (w : World) :
  is_running (scheduler w) = true ->
  e_data event = Some data ->
  data !! "cron" = None ->
  NotificationScheduler.add_scheduled_event CronTrigger event w
  = (Ok true,
     with_log
       (log w ++ [mkLog ERROR ("Event " ++ e_id event ++ " missing cron configuration");
                  mkLog INFO ("Added scheduled event " ++ e_id event)])%list w).
Proof.
  intros Hr Hd Hc.
  unfold NotificationScheduler.add_scheduled_event, NotificationScheduler.get_self, bind,
    try_except.
  rewrite Hr. cbn -[NotificationScheduler._add_event_job].
  rewrite (add_event_job_without_cron CronTrigger event data w Hd Hc).
  cbn. by rewrite <- app_assoc.
Qed.

(** What [add_scheduled_event] does with a cron expression that cannot be
    turned into a trigger. *)
Lemma add_scheduled_event_malformed_spec
    (event : Event) (data : gmap string value) (expr : string) (w : World) :
  is_running (scheduler w) = true ->
  e_data event = Some data ->
  data !! "cron" = Some (VStr expr) ->
  (length (split expr) <> 5%nat
   \/ exists p0 p1 p2 p3 p4 e,
        split expr = [p0; p1; p2; p3; p4]
        /\ CronTrigger (parts_of p0 p1 p2 p3 p4) = Raise e) ->
  let r := NotificationScheduler.add_scheduled_event CronTrigger event w in
  r.1 = Ok false
  /\ scheduler r.2 = scheduler w
  /\ tables r.2 = tables w.
Proof.
  intros Hr Hd Hc Hbad r. subst r.
  unfold NotificationScheduler.add_scheduled_event, NotificationScheduler.get_self, bind,
    try_except.
  rewrite Hr. cbn -[NotificationScheduler._add_event_job].
  destruct Hbad as [Hl | (p0 & p1 & p2 & p3 & p4 & e & Hs & Ht)].
  - destruct (add_event_job_malformed CronTrigger event data expr w Hd Hc Hl) as [l ->].
    done.
  - destruct (add_event_job_rejected CronTrigger event data expr p0 p1 p2 p3 p4 e w
                Hd Hc Hs Ht) as [l ->].
    done.
Qed.

(** What [remove_scheduled_event] does to the jobs. *)
Lemma remove_scheduled_event_spec (event_id : string) (w : World) :
  let r := NotificationScheduler.remove_scheduled_event event_id w in
  r.1 = Ok (bool_decide (is_Some (jobs (scheduler w) !! event_id)))
  /\ jobs (scheduler r.2) !! event_id = None
  /\ (forall id, id <> event_id ->
        jobs (scheduler r.2) !! id = jobs (scheduler w) !! id)
  /\ is_running (scheduler r.2) = is_running (scheduler w)
  /\ tables r.2 = tables w.
Proof.
  unfold NotificationScheduler.remove_scheduled_event, NotificationScheduler.remove_job,
    try_except, bind.
  destruct (jobs (scheduler w) !! event_id) as [job|] eqn:Hj; cbn.
  - split; [done|]. split; [apply lookup_delete_eq|]. split; [|done].
    intros id Hid. by apply lookup_delete_ne.
  - split; [done|]. split; [done|]. done.
Qed.

(** X7. On a running scheduler, [add_scheduled_event] for an event whose
    cron expression does not have five fields, or has five fields the
    trigger constructor rejects, returns false; the scheduler and the
    tables are as before. *)
Theorem add_scheduled_event_malformed
    (event : Event) (data : gmap string value) (expr : string) (w : World) :
  is_running (scheduler w) = true ->
  e_data event = Some data ->
  data !! "cron" = Some (VStr expr) ->
  (length (split expr) <> 5%nat
   \/ exists p0 p1 p2 p3 p4 e,
        split expr = [p0; p1; p2; p3; p4]
        /\ CronTrigger (parts_of p0 p1 p2 p3 p4) = Raise e) ->
  let r := NotificationScheduler.add_scheduled_event CronTrigger event w in
  r.1 = Ok false
  /\ scheduler r.2 = scheduler w
  /\ tables r.2 = tables w.
Proof. exact (add_scheduled_event_malformed_spec event data expr w). Qed.

(** X8. [remove_scheduled_event] never raises: it returns true exactly
    when a job of that id was registered; afterwards no job has that id,
    the other jobs are kept, and the tables are not touched. *)
Theorem remove_scheduled_event_removes (event_id : string) (w : World) :
  let r := NotificationScheduler.remove_scheduled_event event_id w in
  r.1 = Ok (bool_decide (is_Some (jobs (scheduler w) !! event_id)))
  /\ jobs (scheduler r.2) !! event_id = None
  /\ (forall id, id <> event_id ->
        jobs (scheduler r.2) !! id = jobs (scheduler w) !! id)
  /\ is_running (scheduler r.2) = is_running (scheduler w)
  /\ tables r.2 = tables w.
Proof. exact (remove_scheduled_event_spec event_id w). Qed.

(** X9. [update_scheduled_event] removes before it adds: on a running
    scheduler, when the event's new cron expression does not have five
    fields the call returns false and the job the event had is gone, so the
    event is no longer scheduled; the other jobs are kept. *)
Theorem update_scheduled_event_malformed_loses_job
    (event : Event) (data : gmap string value) (expr : string) (w : World) :
  is_running (scheduler w) = true ->
  e_data event = Some data ->
  data !! "cron" = Some (VStr expr) ->
  length (split expr) <> 5%nat ->
  let r := NotificationScheduler.update_scheduled_event CronTrigger event w in
  r.1 = Ok false
  /\ jobs (scheduler r.2) !! e_id event = None
  /\ (forall id, id <> e_id event ->
        jobs (scheduler r.2) !! id = jobs (scheduler w) !! id)
  /\ tables r.2 = tables w.
Proof.
  intros Hr Hd Hc Hl r. subst r.
  pose proof (remove_scheduled_event_spec (e_id event) w) as Hrem.
  unfold NotificationScheduler.update_scheduled_event, try_except, bind.
  destruct (NotificationScheduler.remove_scheduled_event (e_id event) w)
    as [res w1] eqn:Hremove.
  cbn in Hrem. destruct Hrem as (-> & Hgone & Hothers & Hrun & Htab).
  assert (Hr1 : is_running (scheduler w1) = true) by congruence.
  pose proof (add_scheduled_event_malformed_spec event data expr w1 Hr1 Hd Hc (or_introl Hl))
    as Hadd.
  destruct (NotificationScheduler.add_scheduled_event CronTrigger event w1)
    as [res2 w2] eqn:Hadded.
  cbn in Hadd. destruct Hadd as (-> & Hs & Ht). cbn.
  rewrite Hs. split; [done|]. split; [done|]. split; [done|]. congruence.
Qed.

End JobProperties.

(** * Further properties: starting and stopping *)

Section LifecycleFacts.

Variable CronTrigger : cron_parts -> result cron_parts.

(** [_add_event_job] touches the job of its event at most. *)
Lemma add_event_job_frame (event : Event) (w : World) :
  let r := NotificationScheduler._add_event_job CronTrigger event w in
  tables r.2 = tables w
  /\ is_running (scheduler r.2) = is_running (scheduler w)
  /\ started (scheduler r.2) = started (scheduler w)
  /\ (jobs (scheduler r.2) = jobs (scheduler w)
      \/ exists job, jobs (scheduler r.2) = <[e_id event := job]> (jobs (scheduler w))).
Proof.
  unfold NotificationScheduler._add_event_job, NotificationScheduler._parse_cron,
    try_except, bind, lift, getitem, contains, NotificationScheduler.add_job, logger,
    modify, ret, raise.
  destruct (e_data event) as [data|]; [|cbn; eauto 6].
  destruct (data !! "cron") as [cron|]; [|cbn; eauto 6].
  destruct cron as [| | |expr| |]; cbn; eauto 6.
  destruct (split expr) as [|p0 [|p1 [|p2 [|p3 [|p4 [|p5 rest]]]]]]; cbn; eauto 6.
  destruct (CronTrigger _); cbn; eauto 7.
Qed.

Lemma add_event_jobs_frame (evs : list Event) (w : World) :
  let r := NotificationScheduler.add_event_jobs CronTrigger evs w in
  tables r.2 = tables w
  /\ is_running (scheduler r.2) = is_running (scheduler w)
  /\ started (scheduler r.2) = started (scheduler w)
  /\ (forall id, is_Some (jobs (scheduler w) !! id) ->
        is_Some (jobs (scheduler r.2) !! id)).
Proof.
  revert w. induction evs as [|ev evs IH]; intros w; [cbn; done|].
  cbn. unfold bind.
  pose proof (add_event_job_frame ev w) as Hf.
  destruct (NotificationScheduler._add_event_job CronTrigger ev w) as [[[]|e] w1].
  - cbn in Hf. destruct Hf as (Ht & Hr & Hs & Hj).
    destruct (IH w1) as (Ht' & Hr' & Hs' & Hj').
    split; [congruence|]. split; [congruence|]. split; [congruence|].
    intros id Hid. apply Hj'. destruct Hj as [-> | [job ->]]; [done|].
    destruct (decide (e_id ev = id)) as [->|Hne].
    + rewrite lookup_insert_eq. by eexists.
    + by rewrite lookup_insert_ne.
  - cbn in Hf. cbn. destruct Hf as (Ht & Hr & Hs & Hj).
    split; [done|]. split; [done|]. split; [done|].
    intros id Hid. destruct Hj as [-> | [job ->]]; [done|].
    destruct (decide (e_id ev = id)) as [->|Hne].
    + rewrite lookup_insert_eq. by eexists.
    + by rewrite lookup_insert_ne.
Qed.

(** When no event of the list fails, every registrable one has a job. *)
Lemma add_event_jobs_all (evs : list Event) (w : World) :
  Forall (fun ev => registrable CronTrigger ev \/ without_cron ev) evs ->
  let r := NotificationScheduler.add_event_jobs CronTrigger evs w in
  r.1 = Ok tt
  /\ (forall ev, In ev evs -> registrable CronTrigger ev ->
        is_Some (jobs (scheduler r.2) !! e_id ev)).
Proof.
  intros Hall. revert w. induction Hall as [|ev evs Hev Hall IH]; intros w; [done|].
  cbn. unfold bind.
  assert (Hstep : exists w1,
            NotificationScheduler._add_event_job CronTrigger ev w = (Ok tt, w1)
            /\ (registrable CronTrigger ev -> is_Some (jobs (scheduler w1) !! e_id ev))).
  { destruct Hev as [(data & expr & p0 & p1 & p2 & p3 & p4 & trig & Hd & Hc & Hs & Ht)
                    | (data & Hd & Hc)].
    - eexists. split.
      + exact (add_event_job_registers CronTrigger ev data expr p0 p1 p2 p3 p4 trig w
                 Hd Hc Hs Ht).
      + intros _. cbn. rewrite lookup_insert_eq. by eexists.
    - eexists. split.
      + exact (add_event_job_without_cron CronTrigger ev data w Hd Hc).
      + intros (data' & expr & p0 & p1 & p2 & p3 & p4 & trig & Hd' & Hc' & _).
        congruence. }
  destruct Hstep as (w1 & -> & Hjob).
  destruct (IH w1) as [Hok Hrest].
  pose proof (add_event_jobs_frame evs w1) as (_ & _ & _ & Hmono).
  split; [exact Hok|].
  intros ev' [<- | Hin] Hreg.
  - apply Hmono, Hjob, Hreg.
  - by apply Hrest.
Qed.

Lemma load_scheduled_events_frame (w : World) :
  exists w',
    NotificationScheduler._load_scheduled_events CronTrigger w = (Ok tt, w')
    /\ tables w' = tables w
    /\ is_running (scheduler w') = is_running (scheduler w)
    /\ started (scheduler w') = started (scheduler w)
    /\ (forall id, is_Some (jobs (scheduler w) !! id) ->
          is_Some (jobs (scheduler w') !! id)).
Proof.
  unfold NotificationScheduler._load_scheduled_events, try_except, bind,
    EventRepository.get_scheduled_events, logger, modify.
  cbn -[NotificationScheduler.add_event_jobs pretty].
  match goal with
  | |- context [NotificationScheduler.add_event_jobs CronTrigger ?evs ?w0] =>
      pose proof (add_event_jobs_frame evs w0) as Hf;
      destruct (NotificationScheduler.add_event_jobs CronTrigger evs w0) as [[[]|e] w1]
  end; cbn in Hf; destruct Hf as (Ht & Hr & Hs & Hj); eexists; (split; [reflexivity|]);
    cbn; eauto.
Qed.

End LifecycleFacts.

Section LifecycleProperties.

Variable CronTrigger : cron_parts -> result cron_parts.

(** [start] on a scheduler that is not running. *)
Lemma start_not_running (w : World) :
  is_running (scheduler w) = false ->
  exists w',
    NotificationScheduler.start CronTrigger w
    = (if started (scheduler w)
       then Raise (SchedulerAlreadyRunningError "Scheduler is already running")
       else Ok tt, w')
    /\ is_running (scheduler w') = negb (started (scheduler w))
    /\ started (scheduler w') = true
    /\ tables w' = tables w
    /\ (forall id, is_Some (jobs (scheduler w) !! id) ->
          is_Some (jobs (scheduler w') !! id)).
Proof.
  intros Hr.
  unfold NotificationScheduler.start, NotificationScheduler.get_self, bind, try_except.
  rewrite Hr.
  destruct (load_scheduled_events_frame CronTrigger w) as (w1 & -> & Ht & Hr1 & Hs1 & Hj).
  unfold NotificationScheduler.scheduler_start. rewrite Hs1.
  destruct (started (scheduler w)) eqn:Hs.
  - eexists. split; [reflexivity|]. cbn.
    split; [congruence|]. split; [congruence|]. split; [exact Ht|exact Hj].
  - eexists. split; [reflexivity|]. cbn.
    split; [done|]. split; [done|]. split; [exact Ht|exact Hj].
Qed.

(** X10. [start] on a scheduler that is already running changes nothing
    but the log, which gets one warning. Otherwise it loads the events and
    starts the APScheduler instance: when that instance is stopped, [start]
    returns with the scheduler running; when it is still started, as it is
    after a [stop] whose shutdown the event loop has not run yet, [start]
    raises the library's [SchedulerAlreadyRunningError] and the scheduler
    stays not running. In no case are the tables touched or a registered
    job dropped. *)
Theorem start_needs_a_stopped_instance (w : World) :
  (is_running (scheduler w) = true ->
   NotificationScheduler.start CronTrigger w
   = (Ok tt, with_log (log w ++ [mkLog WARNING "Scheduler is already running"])%list w))
  /\ (is_running (scheduler w) = false ->
      exists w',
        NotificationScheduler.start CronTrigger w
        = (if started (scheduler w)
           then Raise (SchedulerAlreadyRunningError "Scheduler is already running")
           else Ok tt, w')
        /\ is_running (scheduler w') = negb (started (scheduler w))
        /\ started (scheduler w') = true
        /\ tables w' = tables w
        /\ (forall id, is_Some (jobs (scheduler w) !! id) ->
              is_Some (jobs (scheduler w') !! id))).
Proof.
  split; [|apply start_not_running].
  intros Hr.
  unfold NotificationScheduler.start, NotificationScheduler.get_self, bind.
  rewrite Hr. reflexivity.
Qed.

(** X11. [stop] never raises and always leaves the scheduler not running,
    with the tables as they were; on a scheduler that is not running it
    changes nothing but the log, which gets one warning. On a running one it
    only hands the shutdown to the event loop: when [stop] returns the jobs
    are still registered and the APScheduler instance is still started, so
    that a [start] made before the event loop has run the shutdown raises;
    once the loop has run it, the instance is stopped and holds no job. *)
Theorem stop_hands_the_shutdown_to_the_loop (w : World) :
  exists w',
    NotificationScheduler.stop w = (Ok tt, w')
    /\ is_running (scheduler w') = false
    /\ jobs (scheduler w') = jobs (scheduler w)
    /\ started (scheduler w') = started (scheduler w)
    /\ tables w' = tables w
    /\ (is_running (scheduler w) = false ->
        w' = with_log (log w ++ [mkLog WARNING "Scheduler is not running"])%list w)
    /\ (is_running (scheduler w) = true ->
        started (scheduler w) = true ->
        (NotificationScheduler.start CronTrigger w').1
        = Raise (SchedulerAlreadyRunningError "Scheduler is already running")
        /\ jobs (scheduler (NotificationScheduler.event_loop_runs_shutdown w')) = ∅
        /\ started (scheduler (NotificationScheduler.event_loop_runs_shutdown w'))
           = false
        /\ tables (NotificationScheduler.event_loop_runs_shutdown w') = tables w).
Proof.
  unfold NotificationScheduler.stop, NotificationScheduler.get_self, bind, try_except.
  destruct (is_running (scheduler w)) eqn:Hr; cbn [negb].
  - unfold NotificationScheduler.scheduler_shutdown,
      NotificationScheduler.set_is_running, logger, modify.
    eexists. split; [reflexivity|].
    match goal with
    | |- context [NotificationScheduler.start CronTrigger ?w1] =>
        destruct (start_not_running w1 eq_refl) as (w2 & Hstart & _)
    end.
    split; [reflexivity|]. split; [reflexivity|]. split; [reflexivity|].
    split; [reflexivity|]. split; [intros H; discriminate H|].
    intros _ Hs. split.
    + rewrite Hstart. cbn. by rewrite Hs.
    + unfold NotificationScheduler.event_loop_runs_shutdown. cbn. by rewrite Hs.
  - unfold logger, modify. eexists. split; [reflexivity|]. cbn.
    split; [exact Hr|]. split; [reflexivity|]. split; [reflexivity|].
    split; [reflexivity|]. split; [reflexivity|]. intros H; discriminate H.
Qed.

(** X12. When the scheduler is not running, its APScheduler instance is
    stopped, and every persisted scheduled event either is registrable or
    has no [cron] key, [start] returns with the scheduler running and a job
    registered for every registrable scheduled event. *)
Theorem start_registers_every_event (w : World) :
  is_running (scheduler w) = false ->
  started (scheduler w) = false ->
  Forall (fun ev => registrable CronTrigger ev \/ without_cron ev)
    (List.filter (fun e => String.eqb (e_type e) "scheduled") (events w)) ->
  let r := NotificationScheduler.start CronTrigger w in
  r.1 = Ok tt
  /\ is_running (scheduler r.2) = true
  /\ (forall ev, In ev (events w) -> e_type ev = "scheduled" ->
        registrable CronTrigger ev ->
        is_Some (jobs (scheduler r.2) !! e_id ev)).
Proof.
  intros Hr Hst Hall r. subst r.
  unfold NotificationScheduler.start, NotificationScheduler.get_self, bind, try_except.
  rewrite Hr.
  unfold NotificationScheduler._load_scheduled_events, try_except, bind,
    EventRepository.get_scheduled_events, logger, modify.
  cbn -[NotificationScheduler.add_event_jobs pretty].
  match goal with
  | |- context [NotificationScheduler.add_event_jobs CronTrigger ?evs ?w0] =>
      pose proof (add_event_jobs_all CronTrigger evs w0 Hall) as Hf;
      pose proof (add_event_jobs_frame CronTrigger evs w0) as (_ & _ & Hs1 & _);
      destruct (NotificationScheduler.add_event_jobs CronTrigger evs w0) as [res w1]
  end.
  cbn in Hf, Hs1. destruct Hf as [-> Hjobs].
  unfold NotificationScheduler.scheduler_start. cbn. rewrite Hs1, Hst. cbn.
  split; [done|]. split; [done|].
  intros ev Hin Hty Hreg. apply Hjobs; [|done].
  apply filter_In. split; [done|]. by apply String.eqb_eq.
Qed.

End LifecycleProperties.

Lemma start_registers_every_event_witness :
  let r := NotificationScheduler.start ex_CronTrigger ex_two_events in
  r.1 = Ok tt
  /\ is_running (scheduler r.2) = true
  /\ (forall ev, In ev (events ex_two_events) -> e_type ev = "scheduled" ->
        registrable ex_CronTrigger ev ->
        is_Some (jobs (scheduler r.2) !! e_id ev)).
Proof.
  refine (start_registers_every_event ex_CronTrigger ex_two_events
            ltac:(vm_compute; reflexivity) ltac:(vm_compute; reflexivity) _).
  change (List.filter (fun e => String.eqb (e_type e) "scheduled") (events ex_two_events))
    with [ex_no_cron; ex_daily].
  constructor; [|constructor; [|constructor]].
  - right. eexists. split; [reflexivity|]. vm_compute. reflexivity.
  - left. exists (default ∅ (e_data ex_daily)), "0 9 * * *", "0", "9", "*", "*", "*".
    eexists. split; [reflexivity|]. split; [vm_compute; reflexivity|].
    split; [vm_compute; reflexivity|]. reflexivity.
Defined.

(** Witnesses of X4 to X9, on [ex_empty] (stopped) and [ex_running]. *)

Lemma add_scheduled_event_when_stopped_witness :
  NotificationScheduler.add_scheduled_event ex_CronTrigger ex_daily ex_empty
  = (Ok false,
     with_log
       (log ex_empty ++ [mkLog WARNING "Scheduler is not running, cannot add event"])%list
       ex_empty).
Proof.
  exact (add_scheduled_event_when_stopped ex_CronTrigger ex_daily ex_empty
           ltac:(vm_compute; reflexivity)).
Defined.

Lemma add_scheduled_event_registers_witness :
  let r := NotificationScheduler.add_scheduled_event ex_CronTrigger ex_daily ex_running in
  r.1 = Ok true
  /\ jobs (scheduler r.2) !! e_id ex_daily
     = Some (job_for ex_daily (parts_of "0" "9" "*" "*" "*"))
  /\ (forall id, id <> e_id ex_daily ->
        jobs (scheduler r.2) !! id = jobs (scheduler ex_running) !! id)
  /\ is_running (scheduler r.2) = true
  /\ tables r.2 = tables ex_running.
Proof.
  exact (add_scheduled_event_registers ex_CronTrigger ex_daily
           (default ∅ (e_data ex_daily)) "0 9 * * *" "0" "9" "*" "*" "*"
           (parts_of "0" "9" "*" "*" "*") ex_running
           ltac:(vm_compute; reflexivity) ltac:(reflexivity)
           ltac:(vm_compute; reflexivity) ltac:(vm_compute; reflexivity)
           ltac:(reflexivity)).
Defined.

Lemma add_scheduled_event_without_cron_witness :
  NotificationScheduler.add_scheduled_event ex_CronTrigger ex_no_cron ex_running
  = (Ok true,
     with_log
       (log ex_running
        ++ [mkLog ERROR ("Event " ++ e_id ex_no_cron ++ " missing cron configuration");
            mkLog INFO ("Added scheduled event " ++ e_id ex_no_cron)])%list ex_running).
Proof.
  exact (add_scheduled_event_without_cron ex_CronTrigger ex_no_cron
           (default ∅ (e_data ex_no_cron)) ex_running
           ltac:(vm_compute; reflexivity) ltac:(reflexivity)
           ltac:(vm_compute; reflexivity)).
Defined.

Lemma add_scheduled_event_malformed_witness :
  let r := NotificationScheduler.add_scheduled_event ex_CronTrigger ex_daily_bad
             ex_running in
  r.1 = Ok false
  /\ scheduler r.2 = scheduler ex_running
  /\ tables r.2 = tables ex_running.
Proof.
  exact (add_scheduled_event_malformed ex_CronTrigger ex_daily_bad
           (default ∅ (e_data ex_daily_bad)) "0 9 * *" ex_running
           ltac:(vm_compute; reflexivity) ltac:(reflexivity)
           ltac:(vm_compute; reflexivity)
           ltac:(left; vm_compute; discriminate)).
Defined.

Lemma update_scheduled_event_malformed_loses_job_witness :
  let r := NotificationScheduler.update_scheduled_event ex_CronTrigger ex_daily_bad
             ex_running in
  is_Some (jobs (scheduler ex_running) !! e_id ex_daily_bad)
  /\ r.1 = Ok false
  /\ jobs (scheduler r.2) !! e_id ex_daily_bad = None
  /\ (forall id, id <> e_id ex_daily_bad ->
        jobs (scheduler r.2) !! id = jobs (scheduler ex_running) !! id)
  /\ tables r.2 = tables ex_running.
Proof.
  split; [vm_compute; eexists; reflexivity|].
  exact (update_scheduled_event_malformed_loses_job ex_CronTrigger ex_daily_bad
           (default ∅ (e_data ex_daily_bad)) "0 9 * *" ex_running
           ltac:(vm_compute; reflexivity) ltac:(reflexivity)
           ltac:(vm_compute; reflexivity)
           ltac:(vm_compute; discriminate)).
Defined.

(** * Further properties: the orchestrator *)

Section OrchestratorMore.

Variable channels : gmap string BaseChannel.

(** The table after a send of a fresh draft: the row of the draft, with a
    terminal status and possibly a [sent_at], added to the rows there were. *)
Lemma send_row (n : Notification) (w : World) :
  storable n w ->
  let r := NotificationService.send_notification (service channels) n w in
  exists st ts,
    terminal st = true
    /\ notifications r.2
       = <[n_id n := set_sent_at ts (set_status st (stored n))]> (notifications w)
    /\ clock r.2 = clock w
    /\ (st = DUPLICATE <-> suppressed n w = true).
Proof.
  intros Hst r. subst r. destruct (suppressed n w) eqn:Hs.
  - exists DUPLICATE, (Some (clock w (2 + ticks w)%nat)).
    split; [done|]. split; [apply (send_suppressed channels n w Hst Hs)|].
    split; [|done].
    rewrite suppressed_eq in Hs by done. destruct Hst as [Hl Hb]. clear -Hl Hb Hs.
    unfold_service. cbn. rewrite Hb, Hl. cbn.
    change (match ?c with 0%nat => false | S _ => true end) with (0 <? c)%nat.
    unfold stored in Hs. rewrite Hs. cbn. rewrite lookup_insert_eq. reflexivity.
  - destruct (ChannelManager.send channels (stored n)) as [b|e] eqn:Hc.
    + exists SENT, (Some (clock w (1 + ticks w)%nat)).
      split; [done|]. split; [apply (send_dispatched channels n w b Hst Hs Hc)|].
      split; [|split; [discriminate|discriminate]].
      rewrite suppressed_eq in Hs by done. destruct Hst as [Hl Hb]. clear -Hl Hb Hs Hc.
      unfold_service. cbn. rewrite Hb, Hl. cbn.
      change (match ?c with 0%nat => false | S _ => true end) with (0 <? c)%nat.
      unfold stored in Hs, Hc. rewrite Hs. cbn. rewrite Hc. cbn.
      rewrite lookup_insert_eq. reflexivity.
    + exists FAILED, (n_sent_at n).
      split; [done|].
      split; [|split; [|split; [discriminate|discriminate]]].
      * destruct (send_dispatch_raised channels n w e Hst Hs Hc) as (_ & -> & _).
        by destruct n.
      * rewrite suppressed_eq in Hs by done. destruct Hst as [Hl Hb].
        clear -Hl Hb Hs Hc.
        unfold_service. cbn. rewrite Hb, Hl. cbn.
        change (match ?c with 0%nat => false | S _ => true end) with (0 <? c)%nat.
        unfold stored in Hs, Hc. rewrite Hs. cbn. rewrite Hc. cbn.
        rewrite lookup_insert_eq. reflexivity.
Qed.


(** X14. Two drafts with the same content hash and different ids, both of
    which the insert accepts, sent one after the other: if the first was
    created no earlier than the window before the reading of the clock the
    second check takes, the second ends as duplicate with false returned,
    and the row of the first is as the first send left it. *)
Theorem second_identical_draft_is_duplicate (n1 n2 : Notification) (w : World) :
  storable n1 w ->
  storable n2 w ->
  n_id n1 <> n_id n2 ->
  n_content_hash n1 = n_content_hash n2 ->
  let r1 := NotificationService.send_notification (service channels) n1 w in
  let r2 := NotificationService.send_notification (service channels) n2 r1.2 in
  clock w (ticks r1.2) - timedelta TimeWindowPolicy.default_window_seconds
    <= n_created_at n1 ->
  r2.1 = Ok false
  /\ (n_status <$> notifications r2.2 !! n_id n2) = Some DUPLICATE
  /\ notifications r2.2 !! n_id n1 = notifications r1.2 !! n_id n1
  /\ is_Some (notifications r1.2 !! n_id n1).
Proof.
  intros Hl1 [Hl2 Hb2] Hne Hh r1 r2 Hwin.
  destruct (send_row n1 w Hl1) as (st & ts & _ & Ht1 & Hck & _).
  fold r1 in Ht1, Hck.
  assert (Hfresh2 : storable n2 r1.2).
  { split; [|exact Hb2]. rewrite Ht1. by rewrite lookup_insert_ne. }
  assert (Hs2 : suppressed n2 r1.2 = true).
  { apply suppressed_iff; [apply Hfresh2|].
    exists (n_id n1), (set_sent_at ts (set_status st (stored n1))).
    rewrite Ht1, lookup_insert_eq, Hck. done. }
  destruct (send_suppressed channels n2 r1.2 Hfresh2 Hs2) as (Hres & Ht2 & _).
  fold r2 in Hres, Ht2.
  split; [exact Hres|]. rewrite Ht2.
  split; [by rewrite lookup_insert_eq|].
  split; [by rewrite lookup_insert_ne|].
  rewrite Ht1, lookup_insert_eq. by eexists.
Qed.

(** X15. For a draft the insert accepts, [send_notification] adds an entry
    to the deduplication log exactly when the send is suppressed; the entry
    carries the content hash of the draft. A send that is dispatched, or
    fails, leaves the log as it was, and so does a call whose insert is
    refused. *)
Theorem deduplication_log_grows_only_when_suppressed (n : Notification) (w : World) :
  let r := NotificationService.send_notification (service channels) n w in
  (storable n w ->
   (suppressed n w = true ->
    exists entry,
      deduplication_logs r.2 = (deduplication_logs w ++ [entry])%list
      /\ dl_content_hash entry = n_content_hash n)
   /\ (suppressed n w = false -> deduplication_logs r.2 = deduplication_logs w))
  /\ (~ storable n w -> deduplication_logs r.2 = deduplication_logs w).
Proof.
  intros r. split.
  - intros Hl. split; intros Hs.
    + destruct (send_suppressed channels n w Hl Hs) as (_ & _ & Hd & _).
      eexists. split; [exact Hd|done].
    + destruct (ChannelManager.send channels (stored n)) as [b|e] eqn:Hc.
      * apply (send_dispatched channels n w b Hl Hs Hc).
      * apply (send_dispatch_raised channels n w e Hl Hs Hc).
  - intros Hn. apply (send_insert_refused channels n w Hn).
Qed.

End OrchestratorMore.


Lemma second_identical_draft_is_duplicate_witness :
  let r1 := NotificationService.send_notification (service ex_channels) ex_second
              ex_empty in
  let r2 := NotificationService.send_notification (service ex_channels) ex_fifth r1.2 in
  r2.1 = Ok false
  /\ (n_status <$> notifications r2.2 !! n_id ex_fifth) = Some DUPLICATE
  /\ notifications r2.2 !! n_id ex_second = notifications r1.2 !! n_id ex_second
  /\ is_Some (notifications r1.2 !! n_id ex_second).
Proof.
  exact (second_identical_draft_is_duplicate ex_channels ex_second ex_fifth ex_empty
           ltac:(vm_compute; split; reflexivity) ltac:(vm_compute; split; reflexivity)
           ltac:(vm_compute; discriminate) ltac:(reflexivity)
           ltac:(vm_compute; discriminate)).
Defined.

Lemma deduplication_log_grows_only_when_suppressed_witness :
  let r := NotificationService.send_notification (service ex_channels) ex_second
             ex_sent_first in
  exists entry,
    deduplication_logs r.2 = (deduplication_logs ex_sent_first ++ [entry])%list
    /\ dl_content_hash entry = n_content_hash ex_second.
Proof.
  exact (proj1 (proj1 (deduplication_log_grows_only_when_suppressed ex_channels
                         ex_second ex_sent_first)
                  ltac:(vm_compute; split; reflexivity))
           ltac:(vm_compute; reflexivity)).
Defined.

(** * Further properties: the deduplication manager and the repositories *)

Section ManagerFacts.

Lemma handle_app (ps rest : list (string * BasePolicy)) (n : Notification) (w : World) :
  DeduplicationManager.handle (ps ++ rest) n w
  = match DeduplicationManager.handle ps n w with
    | (Ok true, w') => DeduplicationManager.handle rest n w'
    | other => other
    end.
Proof.
  revert w. induction ps as [|[name p] ps IH]; intros w; [reflexivity|].
  cbn. unfold bind.
  destruct (should_send p n w) as [[[]|e] w1]; [apply IH| |reflexivity].
  destruct (record_duplication p n w1) as [[[]|e] w2]; reflexivity.
Qed.

End ManagerFacts.

(** X16. [handle] asks the policies in registration order and stops at
    the first that objects or raises: policies registered after it are not
    consulted, so adding policies at the end changes nothing in that case;
    when all the policies agree to send, the policies added at the end are
    asked next, in the world the first ones left. *)
Theorem handle_stops_at_the_first_objection
    (ps rest : list (string * BasePolicy)) (n : Notification) (w : World) :
  ((DeduplicationManager.handle ps n w).1 = Ok false ->
   DeduplicationManager.handle (ps ++ rest) n w = DeduplicationManager.handle ps n w)
  /\ (forall e, (DeduplicationManager.handle ps n w).1 = Raise e ->
        DeduplicationManager.handle (ps ++ rest) n w = DeduplicationManager.handle ps n w)
  /\ ((DeduplicationManager.handle ps n w).1 = Ok true ->
      DeduplicationManager.handle (ps ++ rest) n w
      = DeduplicationManager.handle rest n (DeduplicationManager.handle ps n w).2).
Proof.
  rewrite handle_app.
  destruct (DeduplicationManager.handle ps n w) as [[[]|e] w1]; cbn;
    repeat split; try done; intros; discriminate.
Qed.

(** X17. [update_status] on an id that is not stored returns nothing and
    changes nothing. On a stored row it writes the status it is given,
    whatever the status was, and leaves every other row alone; [sent_at]
    becomes the time it is given, or the clock's reading when the status is
    sent and no time is given, and is otherwise kept: it is never cleared. *)
Theorem update_status_writes_one_row
    (id : uuid) (status : NotificationStatus) (sent_at : option Z) (w : World) :
  (notifications w !! id = None ->
   NotificationRepository.update_status id status sent_at w = (Ok None, w))
  /\ (forall row,
        notifications w !! id = Some row ->
        let r := NotificationRepository.update_status id status sent_at w in
        let row' :=
          set_sent_at
            match sent_at with
            | Some t => Some t
            | None =>
                match status with
                | SENT => Some (clock w (ticks w))
                | _ => n_sent_at row
                end
            end (set_status status row) in
        r.1 = Ok (Some row')
        /\ notifications r.2 = <[id := row']> (notifications w)
        /\ (is_Some (n_sent_at row) -> is_Some (n_sent_at row'))
        /\ deduplication_logs r.2 = deduplication_logs w
        /\ events r.2 = events w).
Proof.
  unfold NotificationRepository.update_status, NotificationRepository.get, bind, modify,
    ret, utcnow.
  split.
  - intros ->. reflexivity.
  - intros row ->. destruct sent_at as [t|]; [cbn; repeat split; eauto|].
    destruct status; cbn; repeat split; eauto; by destruct row.
Qed.

(** X18. The deduplication decision does not read the deduplication log:
    with any other content of that table the manager decides the same. *)
Theorem suppression_ignores_the_deduplication_log
    (n : Notification) (w : World) (entries : list DeduplicationLog) :
  suppressed n (with_deduplication_logs entries w) = suppressed n w.
Proof.
  rewrite !suppressed_after.
  unfold after_insert, NotificationRepository.create_from_instance,
    NotificationRepository.db_add, bind, ret.
  cbn. destruct (NotificationRepository.bind_error (n_recipient n)); [reflexivity|].
  destruct (notifications w !! n_id n); reflexivity.
Qed.

Section CountFacts.

Lemma filter_length_Permutation {A} (f : A -> bool) (l l' : list A) :
  l ≡ₚ l' -> length (List.filter f l) = length (List.filter f l').
Proof.
  induction 1 as [|x l l' _ IH|x y l|l l' l'' _ IH1 _ IH2]; cbn.
  - done.
  - destruct (f x); cbn; congruence.
  - destruct (f x), (f y); reflexivity.
  - congruence.
Qed.

Lemma count_rows_insert_fresh (f : string * Notification -> bool)
    (t : gmap string Notification) (k : string) (x : Notification) :
  t !! k = None ->
  NotificationRepository.count_rows f (<[k := x]> t)
  = ((if f (k, x) then 1 else 0) + NotificationRepository.count_rows f t)%nat.
Proof.
  intros Hk. unfold NotificationRepository.count_rows.
  rewrite (filter_length_Permutation f _ _ (map_to_list_insert t k x Hk)).
  cbn. by destruct (f (k, x)).
Qed.

End CountFacts.

(** X19. In the statistics of [get_stats], sending a draft the insert
    accepts (its id is not stored and the database can bind its recipient)
    raises the total by one and leaves the number of pending notifications
    as it was: the new row is counted as sent, failed or duplicate. *)
Theorem stats_after_send_notification
    (channels : gmap string BaseChannel) (n : Notification) (w : World)
    (before after : NotificationRepository.Stats) :
  storable n w ->
  (NotificationRepository.get_stats w).1 = Ok before ->
  (NotificationRepository.get_stats
     (NotificationService.send_notification (service channels) n w).2).1 = Ok after ->
  NotificationRepository.st_total after = S (NotificationRepository.st_total before)
  /\ NotificationRepository.st_pending after = NotificationRepository.st_pending before
  /\ (NotificationRepository.st_sent after + NotificationRepository.st_failed after
      + NotificationRepository.st_duplicates after
      = S (NotificationRepository.st_sent before + NotificationRepository.st_failed before
           + NotificationRepository.st_duplicates before))%nat.
Proof.
  intros Hl Hb Ha. destruct (send_row channels n w Hl) as (st & ts & Hterm & Ht & _).
  cbv beta iota delta [fst NotificationRepository.get_stats] in Hb, Ha.
  injection Hb as <-. injection Ha as <-.
  cbn [NotificationRepository.st_total NotificationRepository.st_pending
       NotificationRepository.st_sent NotificationRepository.st_failed
       NotificationRepository.st_duplicates].
  rewrite Ht.
  rewrite !count_rows_insert_fresh by apply Hl.
  unfold NotificationRepository.has_status. cbn.
  destruct st; [done| | |]; repeat case_bool_decide; try congruence; lia.
Qed.

Lemma stats_after_send_notification_witness :
  NotificationRepository.st_total (stats_of ex_after_third)
  = S (NotificationRepository.st_total (stats_of ex_sent_first))
  /\ NotificationRepository.st_pending (stats_of ex_after_third)
     = NotificationRepository.st_pending (stats_of ex_sent_first)
  /\ (NotificationRepository.st_sent (stats_of ex_after_third)
      + NotificationRepository.st_failed (stats_of ex_after_third)
      + NotificationRepository.st_duplicates (stats_of ex_after_third)
      = S (NotificationRepository.st_sent (stats_of ex_sent_first)
           + NotificationRepository.st_failed (stats_of ex_sent_first)
           + NotificationRepository.st_duplicates (stats_of ex_sent_first)))%nat.
Proof.
  exact (stats_after_send_notification ex_channels ex_third ex_sent_first
           (stats_of ex_sent_first) (stats_of ex_after_third)
           ltac:(vm_compute; split; reflexivity) ltac:(reflexivity) ltac:(reflexivity)).
Defined.

(** * Further properties: the event and deduplication repositories *)

Section RowFacts.

Lemma find_app_none {A} (f : A -> bool) (l : list A) (x : A) :
  (forall y, In y l -> f y = false) ->
  List.find f (l ++ [x]) = if f x then Some x else None.
Proof.
  induction l as [|y l IH]; intros Hl; cbn; [done|].
  rewrite (Hl y) by (by left). apply IH. intros z Hz. apply Hl. by right.
Qed.

Lemma find_mark_row_same (event_id : string) (now : Z) (rows : list Event) (ev : Event) :
  List.find (fun e => String.eqb (e_id e) event_id) rows = Some ev ->
  List.find (fun e => String.eqb (e_id e) event_id)
    (EventRepository.mark_row event_id now rows)
  = Some (mkEvent (e_id ev) (e_type ev) (e_data ev) (e_created_at ev) (Some now) true
            (e_deleted ev)).
Proof.
  induction rows as [|e rows IH]; cbn; [done|].
  destruct (String.eqb (e_id e) event_id) eqn:He; cbn.
  - intros [= ->]. by rewrite He.
  - rewrite He. exact IH.
Qed.

Lemma find_mark_row_other (event_id other : string) (now : Z) (rows : list Event) :
  other <> event_id ->
  List.find (fun e => String.eqb (e_id e) other)
    (EventRepository.mark_row event_id now rows)
  = List.find (fun e => String.eqb (e_id e) other) rows.
Proof.
  intros Hne. induction rows as [|e rows IH]; cbn; [done|].
  destruct (String.eqb (e_id e) event_id) eqn:He; cbn.
  - apply String.eqb_eq in He.
    assert (Ho : String.eqb (e_id e) other = false)
      by (apply String.eqb_neq; congruence).
    by rewrite Ho.
  - destruct (String.eqb (e_id e) other); [done|exact IH].
Qed.

Lemma length_mark_row (event_id : string) (now : Z) (rows : list Event) :
  length (EventRepository.mark_row event_id now rows) = length rows.
Proof.
  induction rows as [|e rows IH]; cbn; [done|].
  destruct (String.eqb (e_id e) event_id); cbn; congruence.
Qed.

End RowFacts.

(** X20. An event made by [create_event], when the id drawn for it is not
    the id of a stored event, is appended to the table as unprocessed and
    is the event [get_event] finds under its id; it is among the unprocessed
    events; and [get_scheduled_event_by_id] finds it exactly when its type
    is scheduled. *)
Theorem created_event_is_found
    (event_type : string) (data : option (gmap string value)) (w : World) :
  (forall e, In e (events w) -> e_id e <> uuids w (drawn w)) ->
  let r := EventRepository.create_event event_type data w in
  let event :=
    mkEvent (uuids w (drawn w)) event_type data (clock w (ticks w)) None false false in
  r.1 = Ok event
  /\ events r.2 = (events w ++ [event])%list
  /\ (EventRepository.get_event (e_id event) r.2).1 = Ok (Some event)
  /\ (exists unprocessed,
        (EventRepository.get_unprocessed_events r.2).1 = Ok unprocessed
        /\ In event unprocessed)
  /\ (EventRepository.get_scheduled_event_by_id (e_id event) r.2).1
     = Ok (if String.eqb event_type "scheduled" then Some event else None).
Proof.
  intros Hfresh r event. subst r.
  unfold EventRepository.create_event, EventRepository.get_event,
    EventRepository.get_unprocessed_events, EventRepository.get_scheduled_event_by_id,
    bind, uuid4, utcnow, modify, ret.
  cbn. split; [done|]. split; [done|]. split; [|split].
  - f_equal. rewrite find_app_none.
    + cbn. by rewrite String.eqb_refl.
    + intros y Hy. apply String.eqb_neq. by apply Hfresh.
  - eexists. split; [reflexivity|]. apply filter_In. split; [|done].
    apply in_or_app. right. by left.
  - f_equal. rewrite find_app_none.
    + cbn. by rewrite String.eqb_refl.
    + intros y Hy. apply andb_false_iff. left. apply String.eqb_neq. by apply Hfresh.
Qed.

(** X21. [mark_event_processed] returns false and changes nothing when no
    event has the id. Otherwise it returns true, and the event found under
    the id afterwards is the one found before with [processed] set and
    [processed_at] the clock's reading; events found under other ids, the
    number of events and the notifications are as before. *)
Theorem mark_event_processed_marks_one (event_id : uuid) (w : World) :
  ((EventRepository.get_event event_id w).1 = Ok None ->
   EventRepository.mark_event_processed event_id w = (Ok false, w))
  /\ (forall ev,
        (EventRepository.get_event event_id w).1 = Ok (Some ev) ->
        let r := EventRepository.mark_event_processed event_id w in
        r.1 = Ok true
        /\ (EventRepository.get_event event_id r.2).1
           = Ok (Some (mkEvent (e_id ev) (e_type ev) (e_data ev) (e_created_at ev)
                         (Some (clock w (ticks w))) true (e_deleted ev)))
        /\ (forall other, other <> event_id ->
              (EventRepository.get_event other r.2).1
              = (EventRepository.get_event other w).1)
        /\ length (events r.2) = length (events w)
        /\ notifications r.2 = notifications w).
Proof.
  unfold EventRepository.mark_event_processed, EventRepository.get_event, bind, utcnow,
    modify, ret.
  cbn. split.
  - intros [= ->]. reflexivity.
  - intros ev [= Hf]. rewrite Hf. cbn. split; [done|]. split; [|split; [|split]].
    + f_equal. by apply find_mark_row_same.
    + intros other Hne. f_equal. by apply find_mark_row_other.
    + apply length_mark_row.
    + done.
Qed.

(** X22. [check_duplicate] answers true exactly when the log holds an
    entry with the hash; so it answers true for a hash right after
    [log_deduplication] recorded it, and recording a hash does not change
    the answer for another hash. *)
Theorem check_duplicate_finds_logged_hashes (content_hash : string) (w : World) :
  ((DeduplicationRepository.check_duplicate content_hash w).1 = Ok true
   <-> exists entry,
         In entry (deduplication_logs w) /\ dl_content_hash entry = content_hash)
  /\ (DeduplicationRepository.check_duplicate content_hash
        (DeduplicationRepository.log_deduplication content_hash w).2).1 = Ok true
  /\ (forall other,
        other <> content_hash ->
        (DeduplicationRepository.check_duplicate other
           (DeduplicationRepository.log_deduplication content_hash w).2).1
        = (DeduplicationRepository.check_duplicate other w).1).
Proof.
  assert (Hiff : forall h l,
            (match List.find (fun x => String.eqb (dl_content_hash x) h) l with
             | Some _ => true
             | None => false
             end = true)
            <-> exists entry, In entry l /\ dl_content_hash entry = h).
  { intros h l. destruct (List.find _ l) as [x|] eqn:Hf.
    - apply find_some in Hf as [Hin Hx]. apply String.eqb_eq in Hx.
      split; [|done]. intros _. by exists x.
    - split; [done|]. intros (entry & Hin & Hh).
      pose proof (find_none _ _ Hf entry Hin) as Hn. cbn in Hn.
      apply String.eqb_neq in Hn. done. }
  unfold DeduplicationRepository.check_duplicate,
    DeduplicationRepository.log_deduplication, bind, uuid4, utcnow, modify, ret.
  cbn. split; [|split].
  - split.
    + intros [= H]. by apply Hiff.
    + intros H. f_equal. by apply Hiff.
  - f_equal. apply Hiff. eexists. split; [apply in_or_app; right; by left|done].
  - intros other Hne. f_equal. apply bool_ext. rewrite !Hiff. split.
    + intros (entry & Hin & Hh). apply in_app_or in Hin as [Hin | [<- | []]].
      * by exists entry.
      * cbn in Hh. congruence.
    + intros (entry & Hin & Hh). exists entry. split; [|done].
      apply in_or_app. by left.
Qed.

(** X23. [cleanup_old_logs] computes its cutoff, the given number of days
    before the clock's reading, with Python's [timedelta] and [datetime].
    When the number of days is one [timedelta] takes and the cutoff is a
    [datetime], it deletes exactly the entries created before the cutoff
    and returns how many they were: the entries left are those created at
    the cutoff or later, in their order. Otherwise it raises
    [OverflowError] and deletes nothing. The notifications are not touched
    in either case. *)
Theorem cleanup_old_logs_keeps_the_recent (days : Z) (w : World) :
  let r := DeduplicationRepository.cleanup_old_logs days w in
  let cutoff := clock w (ticks w) - days * 86400 * 1000000 in
  let computable :=
    Z.abs days <= 999999999 /\ datetime_min <= cutoff <= datetime_max in
  (computable ->
   exists deleted,
     r.1 = Ok deleted
     /\ (deleted + length (deduplication_logs r.2) = length (deduplication_logs w))%nat
     /\ deduplication_logs r.2
        = List.filter (fun l => cutoff <=? dl_created_at l) (deduplication_logs w)
     /\ (forall entry,
           In entry (deduplication_logs r.2)
           <-> In entry (deduplication_logs w) /\ cutoff <= dl_created_at entry))
  /\ (~ computable ->
      (exists msg, r.1 = Raise (OverflowError msg))
      /\ deduplication_logs r.2 = deduplication_logs w)
  /\ notifications r.2 = notifications w.
Proof.
  cbv zeta.
  set (cutoff := clock w (ticks w) - days * 86400 * 1000000).
  unfold DeduplicationRepository.cleanup_old_logs, DeduplicationRepository.timedelta_days,
    DeduplicationRepository.datetime_sub, timedelta, bind, utcnow, modify, ret, get_world,
    lift.
  cbn [with_ticks clock ticks deduplication_logs notifications fst snd].
  destruct (Z.leb_spec (Z.abs days) 999999999) as [Hd | Hd].
  - cbn [with_ticks clock ticks deduplication_logs notifications fst snd].
    fold cutoff.
    destruct (Z.leb_spec datetime_min cutoff) as [Hlo | Hlo];
      [destruct (Z.leb_spec cutoff datetime_max) as [Hhi | Hhi]|];
      cbn [andb with_ticks with_deduplication_logs clock ticks deduplication_logs
             notifications fst snd].
    + split; [intros _|split; [intros Hn; exfalso; apply Hn; lia|reflexivity]].
      eexists. split; [reflexivity|].
      assert (Hsame : forall l,
                List.filter (fun x => negb (dl_created_at x <? cutoff)) l
                = List.filter (fun x => cutoff <=? dl_created_at x) l).
      { intros l. apply filter_ext. intros x.
        destruct (Z.ltb_spec (dl_created_at x) cutoff),
          (Z.leb_spec cutoff (dl_created_at x)); cbn; try reflexivity; lia. }
      rewrite Hsame. split; [|split; [reflexivity|]].
      * clear. induction (deduplication_logs w) as [|x l IH]; cbn; [done|].
        destruct (Z.ltb_spec (dl_created_at x) cutoff),
          (Z.leb_spec cutoff (dl_created_at x)); cbn; lia.
      * intros entry. rewrite filter_In, Z.leb_le. reflexivity.
    + split; [intros [_ H]; lia|]. split; [|reflexivity].
      intros _. split; [eexists; reflexivity|reflexivity].
    + split; [intros [_ H]; lia|]. split; [|reflexivity].
      intros _. split; [eexists; reflexivity|reflexivity].
  - cbn [with_ticks clock ticks deduplication_logs notifications fst snd].
    split; [intros [H _]; lia|]. split; [|reflexivity].
    intros _. split; [eexists; reflexivity|reflexivity].
Qed.

Lemma cleanup_old_logs_keeps_the_recent_witness :
  let r := DeduplicationRepository.cleanup_old_logs 30 ex_after_third in
  let cutoff := clock ex_after_third (ticks ex_after_third) - 30 * 86400 * 1000000 in
  exists deleted,
    r.1 = Ok deleted
    /\ (deleted + length (deduplication_logs r.2)
        = length (deduplication_logs ex_after_third))%nat
    /\ deduplication_logs r.2
       = List.filter (fun l => cutoff <=? dl_created_at l)
           (deduplication_logs ex_after_third)
    /\ (forall entry,
          In entry (deduplication_logs r.2)
          <-> In entry (deduplication_logs ex_after_third)
              /\ cutoff <= dl_created_at entry).
Proof.
  exact (proj1 (cleanup_old_logs_keeps_the_recent 30 ex_after_third)
           ltac:(vm_compute; repeat split; discriminate)).
Defined.

Lemma created_event_is_found_witness :
  let w := ex_two_events in
  let r := EventRepository.create_event "realtime" (Some ex_signup_data) w in
  let event :=
    mkEvent (uuids w (drawn w)) "realtime" (Some ex_signup_data) (clock w (ticks w))
      None false false in
  r.1 = Ok event
  /\ events r.2 = (events w ++ [event])%list
  /\ (EventRepository.get_event (e_id event) r.2).1 = Ok (Some event)
  /\ (exists unprocessed,
        (EventRepository.get_unprocessed_events r.2).1 = Ok unprocessed
        /\ In event unprocessed)
  /\ (EventRepository.get_scheduled_event_by_id (e_id event) r.2).1
     = Ok (if String.eqb "realtime" "scheduled" then Some event else None).
Proof.
  refine (created_event_is_found "realtime" (Some ex_signup_data) ex_two_events _).
  intros e [<- | [<- | []]]; vm_compute; discriminate.
Defined.

(** * Further properties: handlers and classification *)

Section HandlerFacts.

Lemma construct_ok (cls : EventClass) (ev : Event) (h : BaseEvent) :
  construct cls ev = Ok h ->
  exists data,
    e_data ev = Some data
    /\ h_class h = cls
    /\ h_data h = data
    /\ h_event_id h = e_id ev
    /\ Forall (fun key => is_Some (data !! key)) (required_keys cls).
Proof.
  unfold construct, DailyStatEvent.init, SignupEvent.init, ScheduleEvent.init, contains.
  destruct (e_data ev) as [data|]; [|destruct cls; discriminate].
  destruct cls.
  - destruct (data !! "cron") eqn:H1; [|done]. cbn.
    destruct (data !! "query") eqn:H2; [|done].
    destruct (data !! "recipient") eqn:H3; [|done].
    destruct (data !! "slack_channel") eqn:H4; [|done]. cbn.
    intros [= <-]. exists data. cbn [h_class h_data h_event_id required_keys].
    split; [reflexivity|]. split; [reflexivity|]. split; [reflexivity|].
    split; [reflexivity|].
    constructor; [by rewrite H1|]. constructor; [by rewrite H2|].
    constructor; [by rewrite H3|]. constructor; [by rewrite H4|]. constructor.
  - destruct (data !! "user_name") eqn:H1; [|done].
    destruct (data !! "email") eqn:H2; [|done].
    destruct (data !! "service_name") eqn:H3; [|done].
    destruct (data !! "recipient") eqn:H4; [|done].
    destruct (data !! "slack_channel") eqn:H5; [|done]. cbn.
    intros [= <-]. exists data. cbn [h_class h_data h_event_id required_keys].
    split; [reflexivity|]. split; [reflexivity|]. split; [reflexivity|].
    split; [reflexivity|].
    constructor; [by rewrite H1|]. constructor; [by rewrite H2|].
    constructor; [by rewrite H3|]. constructor; [by rewrite H4|].
    constructor; [by rewrite H5|]. constructor.
Qed.

Lemma construct_complete (cls : EventClass) (ev : Event) (data : gmap string value) :
  e_data ev = Some data ->
  Forall (fun key => is_Some (data !! key)) (required_keys cls) ->
  exists h, construct cls ev = Ok h.
Proof.
  intros Hd Hk.
  unfold construct, DailyStatEvent.init, SignupEvent.init, ScheduleEvent.init, contains.
  rewrite Hd. destruct cls; cbn in Hk.
  - inversion Hk as [|? ? [? H1] Hk1]; subst.
    inversion Hk1 as [|? ? [? H2] Hk2]; subst.
    inversion Hk2 as [|? ? [? H3] Hk3]; subst.
    inversion Hk3 as [|? ? [? H4] _]; subst.
    rewrite H1, H2, H3, H4. cbn. by eexists.
  - inversion Hk as [|? ? [? H1] Hk1]; subst.
    inversion Hk1 as [|? ? [? H2] Hk2]; subst.
    inversion Hk2 as [|? ? [? H3] Hk3]; subst.
    inversion Hk3 as [|? ? [? H4] Hk4]; subst.
    inversion Hk4 as [|? ? [? H5] _]; subst.
    rewrite H1, H2, H3, H4, H5. cbn. by eexists.
Qed.

End HandlerFacts.

Lemma create_event_source_sound (ev : Event) (h : BaseEvent) :
  EventManager.create_event_source ev = Ok h ->
  exists data source,
    e_data ev = Some data
    /\ data !! "source" = Some (VStr source)
    /\ EventManager.EVENT_TYPE_MAP !! source = Some (h_class h)
    /\ h_event_id h = e_id ev
    /\ Forall (fun key => is_Some (data !! key)) (required_keys (h_class h)).
Proof.
  unfold EventManager.create_event_source.
  destruct (e_data ev) as [data|] eqn:Hd; [|intros H; inversion H].
  destruct (data !! "source") as [v|] eqn:Hs; [|intros H; inversion H].
  unfold EventManager.map_get.
  remember EventManager.EVENT_TYPE_MAP as registry eqn:Hreg.
  destruct v as [| | |s| |]; try (intros H; inversion H; fail).
  destruct (registry !! s) as [cls|] eqn:Hm; [|intros H; inversion H].
  intros Hc. 
  destruct (construct_ok cls ev h Hc) as (data' & Hd' & Hcls & _ & Hid & Hk).
  assert (data' = data) as -> by congruence.
  exists data, s. rewrite Hcls.
  split; [reflexivity|]. split; [exact Hs|]. subst registry. split; [exact Hm|].
  split; [exact Hid|exact Hk].
Qed.

Lemma key_is_listed {A : Type} (items : list (string * A)) (k : string) (v : A) :
  (list_to_map items : gmap string A) !! k = Some v -> In k items.*1.
Proof.
  intros Hm. apply list_elem_of_In, list_elem_of_fmap. exists (k, v).
  split; [reflexivity|]. apply elem_of_list_to_map_2. exact Hm.
Qed.

(** X24. Classification succeeds exactly when the event's data is an
    object whose [source] is a string naming a registered handler class and
    which holds every key that class requires; the handler is then of that
    class and carries the event's id, and the source is one of those
    [get_event_source] lists. *)
Theorem classification_succeeds_iff (ev : Event) :
  ((exists h, EventManager.create_event_source ev = Ok h)
   <-> exists data source cls,
         e_data ev = Some data
         /\ data !! "source" = Some (VStr source)
         /\ EventManager.EVENT_TYPE_MAP !! source = Some cls
         /\ Forall (fun key => is_Some (data !! key)) (required_keys cls))
  /\ (forall h,
        EventManager.create_event_source ev = Ok h ->
        h_event_id h = e_id ev
        /\ exists data source,
             e_data ev = Some data
             /\ data !! "source" = Some (VStr source)
             /\ EventManager.EVENT_TYPE_MAP !! source = Some (h_class h)
             /\ In source EventManager.get_event_source).
Proof.
  split; [split|].
  - intros [h Hh].
    destruct (create_event_source_sound ev h Hh) as (data & s & Hd & Hs & Hm & _ & Hk).
    exists data, s, (h_class h). split; [exact Hd|]. split; [exact Hs|].
    split; [exact Hm|exact Hk].
  - intros (data & s & cls & Hd & Hs & Hm & Hk).
    unfold EventManager.create_event_source. rewrite Hd, Hs.
    unfold EventManager.map_get. rewrite Hm.
    exact (construct_complete cls ev data Hd Hk).
  - intros h Hh.
    destruct (create_event_source_sound ev h Hh) as (data & s & Hd & Hs & Hm & Hid & _).
    split; [exact Hid|]. exists data, s. split; [exact Hd|]. split; [exact Hs|].
    split; [exact Hm|].
    exact (key_is_listed EventManager.EVENT_TYPE_ITEMS s (h_class h) Hm).
Qed.

(** * Further properties: the drafts of a handler *)

Section DraftFacts.

Variable tm : TemplateManager.

(** X25. A handler its class's constructor accepted makes its drafts
    without touching the tables, and [create_notifications] can fail only
    where a template fails to render: the keys it reads were checked by the
    constructor. When it returns, it gives one slack draft for a daily
    statistics handler and an email and a slack draft, in that order, for a
    sign-up handler; every draft is pending, unsent, without subject,
    carries the id of the event the handler was built from, the rendered
    content and the hash of that content, and its recipient is the value
    the event's data holds under [recipient] (email) or [slack_channel]
    (slack). *)
Theorem constructed_handler_gives_pending_drafts
    (cls : EventClass) (ev : Event) (h : BaseEvent) (w : World) :
  construct cls ev = Ok h ->
  let r := create_notifications tm h w in
  tables r.2 = tables w
  /\ (forall e, r.1 = Raise e ->
        exists template data, render tm template data = Raise e)
  /\ (forall drafts,
        r.1 = Ok drafts ->
        n_channel <$> drafts
        = match cls with
          | DailyStatEvent_cls => ["slack"]
          | SignupEvent_cls => ["email"; "slack"]
          end
        /\ Forall (fun n =>
                     n_event_id n = e_id ev
                     /\ n_status n = PENDING
                     /\ n_sent_at n = None
                     /\ n_subject n = None
                     /\ (exists data, render tm (n_template_id n) data = Ok (n_content n))
                     /\ n_content_hash n = get_content_hash tm (n_content n)
                     /\ e_data ev ≫= (.!! recipient_key (n_channel n))
                        = Some (n_recipient n))
             drafts).
Proof.
  intros Hc r. subst r.
  destruct (construct_ok cls ev h Hc) as (data & Hd & Hcls & Hdata & Hid & Hk).
  unfold create_notifications. rewrite Hcls, Hd. clear Hcls Hc.
  destruct cls; cbn [required_keys] in Hk.
  - inversion Hk as [|? ? _ Hk1]; subst.
    inversion Hk1 as [|? ? _ Hk2]; subst.
    inversion Hk2 as [|? ? _ Hk3]; subst.
    inversion Hk3 as [|? ? [slack Hslack] _]; subst.
    unfold DailyStatEvent.create_notifications, bind, lift, uuid4, utcnow, ret, getitem.
    destruct (render tm DailyStatEvent.slack_template DailyStatEvent.query_data)
      as [content|e0] eqn:Hrender.
    + rewrite Hslack.
      cbv beta iota delta [fst snd tables notifications deduplication_logs events
                             with_drawn with_ticks].
      split; [reflexivity|]. split; [intros e He; discriminate He|].
      intros drafts [= <-]. split; [reflexivity|].
      constructor; [|constructor].
      cbn [n_event_id n_status n_sent_at n_subject n_template_id n_content
             n_content_hash n_channel n_recipient].
      split; [exact Hid|]. split; [reflexivity|]. split; [reflexivity|].
      split; [reflexivity|]. split; [eexists; exact Hrender|]. split; [reflexivity|].
      exact Hslack.
    + cbv beta iota delta [fst snd tables notifications deduplication_logs events].
      split; [reflexivity|]. split; [|intros drafts He; discriminate He].
      intros e [= <-]. eexists _, _. exact Hrender.
  - inversion Hk as [|? ? _ Hk1]; subst.
    inversion Hk1 as [|? ? _ Hk2]; subst.
    inversion Hk2 as [|? ? _ Hk3]; subst.
    inversion Hk3 as [|? ? [recipient Hrecipient] Hk4]; subst.
    inversion Hk4 as [|? ? [slack Hslack] _]; subst.
    unfold SignupEvent.create_notifications, bind, lift, uuid4, utcnow, ret, getitem.
    destruct (render tm SignupEvent.email_template (h_data h))
      as [email_content|e0] eqn:Hemail.
    + rewrite Hrecipient.
      destruct (render tm SignupEvent.slack_template (h_data h))
        as [slack_content|e1] eqn:Hrender.
      * rewrite Hslack.
        cbv beta iota delta [fst snd tables notifications deduplication_logs events
                               with_drawn with_ticks].
        split; [reflexivity|]. split; [intros e He; discriminate He|].
        intros drafts [= <-]. split; [reflexivity|].
        constructor; [|constructor; [|constructor]];
          cbn [n_event_id n_status n_sent_at n_subject n_template_id n_content
                 n_content_hash n_channel n_recipient].
        -- split; [exact Hid|]. split; [reflexivity|]. split; [reflexivity|].
           split; [reflexivity|]. split; [eexists; exact Hemail|].
           split; [reflexivity|]. exact Hrecipient.
        -- split; [exact Hid|]. split; [reflexivity|]. split; [reflexivity|].
           split; [reflexivity|]. split; [eexists; exact Hrender|].
           split; [reflexivity|]. exact Hslack.
      * cbv beta iota delta [fst snd tables notifications deduplication_logs events
                               with_drawn with_ticks].
        split; [reflexivity|]. split; [|intros drafts He; discriminate He].
        intros e [= <-]. eexists _, _. exact Hrender.
    + cbv beta iota delta [fst snd tables notifications deduplication_logs events].
      split; [reflexivity|]. split; [|intros drafts He; discriminate He].
      intros e [= <-]. eexists _, _. exact Hemail.
Qed.

End DraftFacts.

Lemma constructed_handler_gives_pending_drafts_witness :
  let r := create_notifications ex_templates ex_signup_handler ex_empty in
  tables r.2 = tables ex_empty
  /\ (forall e, r.1 = Raise e ->
        exists template data, render ex_templates template data = Raise e)
  /\ (forall drafts,
        r.1 = Ok drafts ->
        n_channel <$> drafts = ["email"; "slack"]
        /\ Forall (fun n =>
                     n_event_id n = e_id ex_scheduled_signup
                     /\ n_status n = PENDING
                     /\ n_sent_at n = None
                     /\ n_subject n = None
                     /\ (exists data,
                           render ex_templates (n_template_id n) data = Ok (n_content n))
                     /\ n_content_hash n = get_content_hash ex_templates (n_content n)
                     /\ e_data ex_scheduled_signup ≫= (.!! recipient_key (n_channel n))
                        = Some (n_recipient n))
             drafts).
Proof.
  exact (constructed_handler_gives_pending_drafts ex_templates SignupEvent_cls
           ex_scheduled_signup ex_signup_handler ex_empty
           ltac:(vm_compute; reflexivity)).
Defined.

(** * Further properties: the routes *)

Section RouteFacts.

Variable CronTrigger : cron_parts -> result cron_parts.
Variable tm : TemplateManager.
Variables written printed : bool.

(** [add_scheduled_event] answers with a boolean and leaves the tables. *)
Lemma add_scheduled_event_frame (event : Event) (w : World) :
  exists b w',
    NotificationScheduler.add_scheduled_event CronTrigger event w = (Ok b, w')
    /\ tables w' = tables w.
Proof.
  unfold NotificationScheduler.add_scheduled_event, NotificationScheduler.get_self, bind,
    try_except.
  destruct (is_running (scheduler w)); cbn [negb].
  - pose proof (add_event_job_frame CronTrigger event w) as Hf. cbv zeta in Hf.
    destruct (NotificationScheduler._add_event_job CronTrigger event w) as [[[]|e] w1].
    + destruct Hf as (Ht & _). eexists _, _. split; [reflexivity|]. exact Ht.
    + destruct Hf as (Ht & _). eexists _, _. split; [reflexivity|]. exact Ht.
  - eexists _, _. split; [reflexivity|]. reflexivity.
Qed.

Lemma add_scheduled_event_stopped (event : Event) (w : World) :
  is_running (scheduler w) = false ->
  NotificationScheduler.add_scheduled_event CronTrigger event w
  = (Ok false,
     with_log (log w ++ [mkLog WARNING "Scheduler is not running, cannot add event"])%list
       w).
Proof.
  intros Hr.
  unfold NotificationScheduler.add_scheduled_event, NotificationScheduler.get_self, bind.
  rewrite Hr. reflexivity.
Qed.

(** X26. [scheduled_event] never raises past its handlers, and whatever it
    answers, the event it was asked to create is stored, with the request's
    [data] taking precedence over its [source] and [cron]; no notification
    is touched. When the request is not enabled the answer is the success
    response and the scheduler is left alone. When it is enabled and the
    scheduler is not running, the answer is a 500, and the event stays
    stored although no job was registered for it. *)
Theorem scheduled_event_stores_the_event
    (source cron : string) (data : gmap string value) (enabled : option bool)
    (w : World) :
  let r := EventsRoutes.scheduled_event CronTrigger source cron data enabled w in
  let event :=
    mkEvent (uuids w (drawn w)) "scheduled"
      (Some (data ∪ <["cron" := VStr cron]> (<["source" := VStr source]> ∅)))
      (clock w (ticks w)) None false false in
  (exists answer, r.1 = Ok answer)
  /\ events r.2 = (events w ++ [event])%list
  /\ notifications r.2 = notifications w
  /\ (enabled <> Some true ->
      r.1 = Ok (EventsRoutes.Returned
                  (EventsRoutes.mkEventResponse "success"
                     "Scheduled event created successfully" (e_id event)))
      /\ scheduler r.2 = scheduler w)
  /\ (enabled = Some true ->
      is_running (scheduler w) = false ->
      (exists detail, r.1 = Ok (EventsRoutes.HTTPException 500 detail))
      /\ jobs (scheduler r.2) = jobs (scheduler w)).
Proof.
  cbv zeta.
  unfold EventsRoutes.scheduled_event, EventRepository.create_event, try_except, bind,
    logger, modify, ret, uuid4, utcnow.
  cbv beta iota zeta delta [fst snd].
  cbn [with_log with_events with_ticks with_drawn notifications deduplication_logs
         events clock ticks uuids drawn log commits scheduler e_id].
  destruct enabled as [[|]|].
  - match goal with
    | |- context [NotificationScheduler.add_scheduled_event CronTrigger ?e ?w1] =>
        pose proof (add_scheduled_event_frame e w1) as (b & w' & Heq & Htab);
        pose proof (fun H => add_scheduled_event_stopped e w1 H) as Hstop;
        rewrite Heq in *
    end.
    injection Htab as Hn Hd He.
    cbn [with_log with_events with_ticks with_drawn notifications deduplication_logs
           events clock ticks uuids drawn log commits scheduler] in Hn, He, Hstop.
    split; [destruct b; eexists; reflexivity|].
    split; [destruct b; exact He|].
    split; [destruct b; exact Hn|].
    split; [intros Hne; exfalso; apply Hne; reflexivity|].
    intros _ Hr. specialize (Hstop Hr). injection Hstop as -> ->.
    split; [eexists; reflexivity|]. reflexivity.
  - split; [eexists; reflexivity|]. split; [reflexivity|]. split; [reflexivity|].
    split; [intros _; split; reflexivity|]. intros He; discriminate He.
  - split; [eexists; reflexivity|]. split; [reflexivity|]. split; [reflexivity|].
    split; [intros _; split; reflexivity|]. intros He; discriminate He.
Qed.


End RouteFacts.

Section RealTimeFacts.

Variable tm : TemplateManager.
Variables written printed : bool.

(** The loop of the route, wherever it stops, leaves the events. *)
Lemma send_all_keeps_events (channels : gmap string BaseChannel)
    (ns : list Notification) (w : World) :
  events (EventsRoutes.send_all (service channels) ns w).2 = events w.
Proof.
  revert w. induction ns as [|n ns IH]; intros w; [reflexivity|].
  cbn [EventsRoutes.send_all]. unfold bind.
  destruct (send_keeps_outside channels n w) as [He _].
  destruct (NotificationService.send_notification (service channels) n w)
    as [[b|e] w1]; cbn [fst snd] in He |- *.
  - rewrite IH. exact He.
  - exact He.
Qed.

(** [create_notifications] reads the clock and draws ids; it stores nothing. *)
Lemma create_notifications_keeps_tables (h : BaseEvent) (w : World) :
  tables (create_notifications tm h w).2 = tables w.
Proof.
  unfold create_notifications, DailyStatEvent.create_notifications,
    SignupEvent.create_notifications, bind, lift, uuid4, utcnow, ret, getitem.
  destruct (h_class h).
  - destruct (render tm DailyStatEvent.slack_template DailyStatEvent.query_data);
      [|reflexivity].
    destruct (h_data h !! "slack_channel"); reflexivity.
  - destruct (render tm SignupEvent.email_template (h_data h)); [|reflexivity].
    destruct (h_data h !! "recipient"); [|reflexivity].
    destruct (render tm SignupEvent.slack_template (h_data h)); [|reflexivity].
    destruct (h_data h !! "slack_channel"); reflexivity.
Qed.

(** X27. [real_time_event] never raises past its handlers, and every call
    stores two event rows with the same data, one made by the route and one
    by [process_realtime_event]; in that data the request's [data] takes
    precedence over its [source]. The id in a success response is the id of
    the first row, while classification, and so the drafts, use the second.
    When classification of the second row fails with a [ValueError], the
    answer is a 400 with the error's message and no notification is
    stored. *)
Theorem real_time_event_stores_two_events
    (source event_type : string) (data : gmap string value) (w : World) :
  let r := EventsRoutes.real_time_event tm written printed source event_type data w in
  let event_data :=
    data ∪ <["event_type" := VStr event_type]> (<["source" := VStr source]> ∅) in
  let first :=
    mkEvent (uuids w (drawn w)) "realtime" (Some event_data) (clock w (ticks w))
      None false false in
  let second :=
    mkEvent (uuids w (S (drawn w))) "realtime" (Some event_data) (clock w (S (ticks w)))
      None false false in
  (exists answer, r.1 = Ok answer)
  /\ events r.2 = (events w ++ [first; second])%list
  /\ (forall v, data !! "source" = Some v -> event_data !! "source" = Some v)
  /\ (forall answer,
        r.1 = Ok (EventsRoutes.Returned answer) ->
        EventsRoutes.r_event_id answer = e_id first
        /\ exists h, EventManager.create_event_source second = Ok h
                     /\ h_event_id h = e_id second)
  /\ (forall msg,
        EventManager.create_event_source second = Raise (ValueError msg) ->
        r.1 = Ok (EventsRoutes.HTTPException 400 msg)
        /\ notifications r.2 = notifications w).
Proof.
  cbv zeta.
  set (event_data :=
         data ∪ <["event_type" := VStr event_type]> (<["source" := VStr source]> ∅)).
  assert (Hsource : forall v, data !! "source" = Some v -> event_data !! "source" = Some v).
  { intros v Hv. unfold event_data. apply lookup_union_Some_l. exact Hv. }
  unfold EventsRoutes.real_time_event, EventManager.process_realtime_event,
    EventRepository.create_event, try_except, bind, logger, modify, ret, lift, uuid4, utcnow.
  fold event_data.
  cbv beta iota zeta delta [fst snd].
  cbn [with_log with_events with_ticks with_drawn notifications deduplication_logs
         events clock ticks uuids drawn log commits scheduler e_id].
  change (NotificationService.default written printed)
    with (service (ChannelManager._get_channels written printed)).
  rewrite <- app_assoc. cbn [app].
  match goal with
  | |- context [EventManager.create_event_source ?ev] =>
      destruct (EventManager.create_event_source ev) as [h|e] eqn:Hclass
  end.
  - match goal with
    | |- context [create_notifications tm h ?w1] =>
        pose proof (create_notifications_keeps_tables h w1) as Htab;
        destruct (create_notifications tm h w1) as [[drafts|e] w2]
    end.
    + cbn [snd] in Htab. injection Htab as Hn Hd He. cbn [events with_log] in He.
      match goal with
      | |- context [EventsRoutes.send_all ?s drafts ?w3] =>
          pose proof (send_all_keeps_events
                        (ChannelManager._get_channels written printed) drafts w3) as He4;
          destruct (EventsRoutes.send_all s drafts w3) as [[[]|e] w4]
      end.
      * cbn [events with_log snd] in He4 |- *. rewrite He4, He.
        split; [eexists; reflexivity|]. split; [reflexivity|].
        split; [exact Hsource|]. split.
        -- intros answer [= <-]. split; [reflexivity|].
           exists h. split; [reflexivity|].
           destruct (create_event_source_sound _ h Hclass)
             as (? & ? & _ & _ & _ & Hid & _).
           exact Hid.
        -- intros msg Hm; discriminate Hm.
      * cbn [events with_log snd] in He4.
        destruct e; cbv beta iota zeta delta [EventsRoutes.answer_exception bind logger modify ret fst snd];
          cbn [events with_log]; rewrite He4, He;
          (split; [eexists; reflexivity|]);
          (split; [reflexivity|]); (split; [exact Hsource|]);
          (split; [intros ? Ha; discriminate Ha|intros ? Hm; discriminate Hm]).
    + cbn [snd] in Htab. injection Htab as Hn Hd He. cbn [events with_log] in He.
      destruct e; cbv beta iota zeta delta [EventsRoutes.answer_exception bind logger modify ret fst snd];
        cbn [events with_log]; rewrite He;
        (split; [eexists; reflexivity|]);
        (split; [reflexivity|]); (split; [exact Hsource|]);
        (split; [intros ? Ha; discriminate Ha|intros ? Hm; discriminate Hm]).
  - destruct e; cbv beta iota zeta delta [EventsRoutes.answer_exception bind logger modify ret fst snd];
      cbn [events notifications with_log];
      (split; [eexists; reflexivity|]);
      (split; [reflexivity|]); (split; [exact Hsource|]);
      (split; [intros ? Ha; discriminate Ha|]);
      intros ? Hm; first [discriminate Hm | injection Hm as <-; split; reflexivity].
Qed.

End RealTimeFacts.

(** * Further properties: creating a row *)

(** X28. [create], when the id drawn for the row is not taken, returns the
    row it stored: [get] of its id finds it afterwards, with the subject as
    it was given (the default of [create_from_instance] is not applied, so
    an empty subject stays empty), the given status, no [sent_at] and the
    clock's reading as [created_at]; [get] of any other id answers as
    before, and [get_by_event] of the row's event lists it. *)
Theorem created_notification_is_found
    (event_id : uuid) (template_id channel subject : string) (recipient : option string)
    (content content_hash : string) (status : NotificationStatus) (w : World) :
  notifications w !! uuids w (drawn w) = None ->
  let r := NotificationRepository.create event_id template_id channel subject recipient
             content content_hash status w in
  exists n,
    r.1 = Ok n
    /\ n_id n = uuids w (drawn w)
    /\ n_subject n = Some subject
    /\ n_status n = status
    /\ n_sent_at n = None
    /\ n_created_at n = clock w (ticks w)
    /\ (NotificationRepository.get (n_id n) r.2).1 = Ok (Some n)
    /\ (forall id, id <> n_id n ->
          (NotificationRepository.get id r.2).1 = (NotificationRepository.get id w).1)
    /\ (exists rows,
          (NotificationRepository.get_by_event event_id r.2).1 = Ok rows /\ In n rows).
Proof.
  intros Hfresh r. subst r.
  unfold NotificationRepository.create, NotificationRepository.db_add, bind, uuid4, utcnow,
    ret.
  cbn [with_drawn with_ticks notifications n_id n_recipient clock ticks uuids drawn].
  assert (Hb : NotificationRepository.bind_error
                 match recipient with
                 | Some r => VStr r
                 | None => VNull
                 end = None) by (destruct recipient; reflexivity).
  rewrite Hb, Hfresh. eexists. split; [reflexivity|].
  cbn [fst snd n_id n_subject n_status n_sent_at n_created_at].
  split; [reflexivity|]. split; [reflexivity|]. split; [reflexivity|].
  split; [reflexivity|]. split; [reflexivity|].
  unfold NotificationRepository.get, NotificationRepository.get_by_event,
    NotificationRepository.all_rows, commit_notification.
  cbn [fst snd notifications with_drawn with_ticks].
  split; [f_equal; apply lookup_insert_eq|].
  split; [intros id Hid; f_equal; apply lookup_insert_ne; congruence|].
  eexists. split; [reflexivity|].
  apply filter_In. split; [|cbn [n_event_id]; apply String.eqb_refl].
  apply list_elem_of_In, list_elem_of_fmap. eexists (_, _).
  split; [reflexivity|]. apply elem_of_map_to_list. apply lookup_insert_eq.
Qed.

Lemma created_notification_is_found_witness :
  let r := NotificationRepository.create "e9" "user_welcome_email.j2" "email" ""
             (Some "bob@example.org") "Welcome" "sha256:Welcome" PENDING ex_empty in
  exists n,
    r.1 = Ok n
    /\ n_id n = uuids ex_empty (drawn ex_empty)
    /\ n_subject n = Some ""
    /\ n_status n = PENDING
    /\ n_sent_at n = None
    /\ n_created_at n = clock ex_empty (ticks ex_empty)
    /\ (NotificationRepository.get (n_id n) r.2).1 = Ok (Some n)
    /\ (forall id, id <> n_id n ->
          (NotificationRepository.get id r.2).1
          = (NotificationRepository.get id ex_empty).1)
    /\ (exists rows,
          (NotificationRepository.get_by_event "e9" r.2).1 = Ok rows /\ In n rows).
Proof.
  exact (created_notification_is_found "e9" "user_welcome_email.j2" "email" ""
           (Some "bob@example.org") "Welcome" "sha256:Welcome" PENDING ex_empty
           ltac:(vm_compute; reflexivity)).
Defined.

(** * Further properties: a job that fires *)

Section JobRunFacts.

Variable tm : TemplateManager.
Variables written printed : bool.

(** The loop of the job, wherever it stops, leaves the events and the
    scheduler. *)
Lemma send_each_keeps_outside (channels : gmap string BaseChannel)
    (ns : list Notification) (w : World) :
  let r := NotificationScheduler.send_each (service channels) ns w in
  events r.2 = events w /\ scheduler r.2 = scheduler w.
Proof.
  cbv zeta. revert w. induction ns as [|n ns IH]; intros w; [split; reflexivity|].
  cbn [NotificationScheduler.send_each]. unfold bind.
  destruct (send_keeps_outside channels n w) as [He Hs].
  destruct (NotificationService.send_notification (service channels) n w)
    as [[b|e] w1]; cbn [fst snd] in He, Hs |- *.
  - destruct (IH w1) as [He1 Hs1].
    destruct (NotificationScheduler.send_each (service channels) ns w1)
      as [[bs|e] w2]; cbn [fst snd] in He1, Hs1 |- *; unfold ret; cbn [fst snd];
      split; congruence.
  - split; assumption.
Qed.

(** [create_notifications] leaves the scheduler. *)
Lemma create_notifications_keeps_scheduler (h : BaseEvent) (w : World) :
  scheduler (create_notifications tm h w).2 = scheduler w.
Proof.
  unfold create_notifications, DailyStatEvent.create_notifications,
    SignupEvent.create_notifications, bind, lift, uuid4, utcnow, ret, getitem.
  destruct (h_class h).
  - destruct (render tm DailyStatEvent.slack_template DailyStatEvent.query_data);
      [|reflexivity].
    destruct (h_data h !! "slack_channel"); reflexivity.
  - destruct (render tm SignupEvent.email_template (h_data h)); [|reflexivity].
    destruct (h_data h !! "recipient"); [|reflexivity].
    destruct (render tm SignupEvent.slack_template (h_data h)); [|reflexivity].
    destruct (h_data h !! "slack_channel"); reflexivity.
Qed.

(** X29. The function a job runs, [process_scheduled_event], never raises,
    whatever the id and the tables hold; it stores no event row and leaves
    the scheduler's jobs and state alone. When no scheduled event is stored
    under the id, or the stored event is not accepted by the constructor of
    [DailyStatEvent], it sends nothing: the tables are as before and only
    the log has changed. *)
Theorem job_run_never_raises (event_id : string) (w : World) :
  let r := NotificationScheduler.process_scheduled_event tm written printed event_id w in
  r.1 = Ok tt
  /\ events r.2 = events w
  /\ scheduler r.2 = scheduler w
  /\ ((EventRepository.get_scheduled_event_by_id event_id w).1 = Ok None ->
      tables r.2 = tables w)
  /\ (forall ev e,
        (EventRepository.get_scheduled_event_by_id event_id w).1 = Ok (Some ev) ->
        DailyStatEvent.init ev = Raise e ->
        tables r.2 = tables w).
Proof.
  cbv zeta.
  unfold NotificationScheduler.process_scheduled_event,
    NotificationScheduler._create_event_instance,
    EventRepository.get_scheduled_event_by_id, try_except, bind, logger, modify, ret, lift.
  cbv beta iota zeta delta [fst snd].
  cbn [with_log events scheduler notifications deduplication_logs].
  change (NotificationService.default written printed)
    with (service (ChannelManager._get_channels written printed)).
  destruct (find _ (events w)) as [ev|].
  - destruct (DailyStatEvent.init ev) as [h|e0] eqn:Hinit.
    + match goal with
      | |- context [create_notifications tm h ?w1] =>
          pose proof (create_notifications_keeps_tables tm h w1) as Htab;
          pose proof (create_notifications_keeps_scheduler h w1) as Hsch;
          destruct (create_notifications tm h w1) as [[drafts|e] w2]
      end.
      * cbn [snd] in Htab, Hsch. injection Htab as Hn Hd He.
        cbn [events scheduler with_log] in He, Hsch.
        match goal with
        | |- context [NotificationScheduler.send_each ?s drafts ?w3] =>
            destruct (send_each_keeps_outside
                        (ChannelManager._get_channels written printed) drafts w3)
              as [He4 Hs4];
            destruct (NotificationScheduler.send_each s drafts w3) as [[results|e] w4]
        end;
          cbn [events scheduler with_log fst snd] in He4, Hs4 |- *;
          rewrite He4, Hs4, He, Hsch;
          (split; [reflexivity|]); (split; [reflexivity|]); (split; [reflexivity|]);
          (split; [intros H; discriminate H|]);
          intros ? ? [= <-] H; rewrite Hinit in H; discriminate H.
      * cbn [snd] in Htab, Hsch. injection Htab as Hn Hd He.
        cbn [events scheduler with_log] in He, Hsch.
        cbn [events scheduler with_log fst snd]. rewrite He, Hsch.
        split; [reflexivity|]. split; [reflexivity|]. split; [reflexivity|].
        split; [intros H; discriminate H|].
        intros ? ? [= <-] H. rewrite Hinit in H. discriminate H.
    + cbn [events scheduler with_log fst snd].
      split; [reflexivity|]. split; [reflexivity|]. split; [reflexivity|].
      split; [intros H; discriminate H|]. intros ? ? _ _. reflexivity.
  - cbn [events scheduler with_log fst snd].
    split; [reflexivity|]. split; [reflexivity|]. split; [reflexivity|].
    split; [intros _; reflexivity|]. intros ? ? H; discriminate H.
Qed.

End JobRunFacts.
